(** * Wallabag client and tool adapter: a shallow embedding

    The development follows [src/wallabag_client.py] (the article model, the
    request descriptors and the API client) and [src/server.py] (the three
    tool adapters).  Python objects are modelled as records, the values that
    [response.json()] yields as an inductive type of JSON values, dictionaries
    as [gmap]s (or as association lists where the insertion order is
    observable, as for query parameters), and the effects of the client
    (the session token, the process environment, the transport and its
    handles) by a state-and-exception monad. *)

From Stdlib Require Import ZArith SpecFloat Ascii String.
From stdpp Require Import gmap strings list fin_maps pretty.

Set Warnings "-register-all".
Local Open Scope string_scope.
Local Open Scope Z_scope.
Local Open Scope list_scope.
Local Open Scope stdpp_scope.

(** ** Values decoded from JSON

    [response.json()] yields Python values: [None], booleans, integers,
    floats, strings, lists and dictionaries keyed by strings. *)

Inductive json : Type :=
| JNull
| JBool (b : bool)
| JInt (n : Z)
| JFloat (f : spec_float)
| JStr (s : string)
| JArr (items : list json)
| JObj (fields : gmap string json).

(** Python truthiness, as used by [if not x] and [x or y]. *)
Definition str_truthy (s : string) : bool :=
  match s with EmptyString => false | _ => true end.

Definition truthy (j : json) : bool :=
  match j with
  | JNull => false
  | JBool b => b
  | JInt n => negb (Z.eqb n 0)
  | JFloat (S754_zero _) => false
  | JFloat _ => true
  | JStr s => str_truthy s
  | JArr [] => false
  | JArr (_ :: _) => true
  | JObj m => negb (bool_decide (m = ∅))
  end.

(** The name Python reports for the type of a value. *)
Definition type_name (j : json) : string :=
  match j with
  | JNull => "NoneType"
  | JBool _ => "bool"
  | JInt _ => "int"
  | JFloat _ => "float"
  | JStr _ => "str"
  | JArr _ => "list"
  | JObj _ => "dict"
  end.

Definition is_object (j : json) : bool :=
  match j with JObj _ => true | _ => false end.

(** [str(n)] for an integer. *)
Definition str_int (n : Z) : string := pretty n.

(** ** Exceptions *)

Inductive FieldError := Missing | Invalid.

Inductive exn : Type :=
| WallabagConfigError (msg : string)
| WallabagAuthError (msg : string)
| WallabagApiError (msg : string)
| HTTPStatusError (status_code : Z) (text : string)
| RequestError (msg : string)
| JSONDecodeError (msg : string)
| UnicodeDecodeError (msg : string)
| AttributeError (msg : string)
| TypeError (msg : string)
| OverflowError (msg : string)
| ValidationError (msg : string) (errors : list (string * FieldError))
| OtherException (msg : string).

(** [str(e)].  (The transport's own wording for a status error is longer;
    the client never prints it, it reads the status code and the body.) *)
Definition str_exn (e : exn) : string :=
  match e with
  | WallabagConfigError m | WallabagAuthError m | WallabagApiError m
  | RequestError m | JSONDecodeError m | UnicodeDecodeError m
  | AttributeError m | TypeError m | OverflowError m
  | ValidationError m _ | OtherException m => m
  | HTTPStatusError code _ => "HTTP status " +:+ str_int code
  end.

Definition is_WallabagApiError (e : exn) : bool :=
  match e with WallabagApiError _ => true | _ => false end.

(** ** A state-and-exception monad

    A computation runs in a state [S] and either returns a value or raises;
    the state reached is kept in both cases, as an assignment made before a
    [raise] stays visible to the caller. *)

Inductive result (A : Type) : Type :=
| Ok (a : A)
| Raise (e : exn).
Arguments Ok {A} a.
Arguments Raise {A} e.

Definition M (S A : Type) : Type := S → result A * S.

Definition ret {S A} (a : A) : M S A := λ s, (Ok a, s).
Definition raise {S A} (e : exn) : M S A := λ s, (Raise e, s).
Definition bind {S A B} (c : M S A) (k : A → M S B) : M S B :=
  λ s, match c s with
       | (Ok a, s') => k a s'
       | (Raise e, s') => (Raise e, s')
       end.
Definition get {S} : M S S := λ s, (Ok s, s).
Definition modify {S} (f : S → S) : M S unit := λ s, (Ok tt, f s).
Definition lift_result {S A} (r : result A) : M S A := λ s, (r, s).

(** [try: body except ...: handler].  The handler table answers [None] for an
    exception that no [except] clause matches. *)
Definition try_except {S A} (body : M S A) (handler : exn → option (M S A)) : M S A :=
  λ s, match body s with
       | (Ok a, s') => (Ok a, s')
       | (Raise e, s') =>
           match handler e with
           | Some h => h s'
           | None => (Raise e, s')
           end
       end.

(** [try: body finally: cleanup]. *)
Definition try_finally {S A} (body : M S A) (cleanup : M S unit) : M S A :=
  λ s, match body s with
       | (r, s') =>
           match cleanup s' with
           | (Ok _, s'') => (r, s'')
           | (Raise e, s'') => (Raise e, s'')
           end
       end.

Declare Scope py_scope.
Delimit Scope py_scope with py.
Notation "'let*' x := c 'in' k" := (bind c (λ x, k))
  (at level 10, x pattern, c at level 100, k at level 200) : py_scope.
Notation "c ;; k" := (bind c (λ _, k))
  (at level 100, k at level 200, right associativity) : py_scope.
Local Open Scope py_scope.

(** Sequencing of pure computations that may raise, and the list
    comprehension over them: items are built left to right and the first
    failure ends the comprehension. *)
Definition and_then {A B} (r : result A) (k : A → result B) : result B :=
  match r with
  | Ok a => k a
  | Raise e => Raise e
  end.

Fixpoint comprehension {A B} (f : A → result B) (l : list A) : result (list B) :=
  match l with
  | [] => Ok []
  | x :: l' =>
      and_then (f x) (λ y, and_then (comprehension f l') (λ ys, Ok (y :: ys)))
  end.

(** ** Timestamps

    The client makes one observation of a [datetime]: [timestamp()], the
    seconds since the Unix epoch as a float with microsecond resolution.  A
    [datetime] is modelled by that instant, in microseconds.  The type thus
    holds the datetimes that have a timestamp: a naive datetime within a day
    of the ends of the calendar, for which [timestamp()] raises, is not a
    value of it. *)

Record datetime := { timestamp_us : Z }.

Fixpoint strip_zeros_rev (s : list ascii) : list ascii :=
  match s with
  | c :: s' => if Ascii.eqb c "0" then strip_zeros_rev s' else s
  | [] => []
  end.

(** The digits after the decimal point of [us / 10^6] for [0 <= us < 10^6],
    without trailing zeros; a whole number keeps a single [0]. *)
Definition fraction_digits (us : Z) : string :=
  if Z.eqb us 0 then "0"
  else
    let digits := list_ascii_of_string (str_int (1000000 + us)) in
    string_of_list_ascii (rev (strip_zeros_rev (rev (drop 1 digits)))).

(** The [repr] of a float of magnitude [us / 10^6] for [0 < us < 100]:
    below one ten-thousandth Python switches to exponent notation
    ([5e-06], [1.2e-05]). *)
Definition tiny_repr (us : Z) : string :=
  if Z.ltb us 10 then str_int us +:+ "e-06"
  else
    str_int (us / 10) +:+
    (if Z.eqb (us mod 10) 0 then "" else "." +:+ str_int (us mod 10)) +:+ "e-05".

(** [str(d.timestamp())]: the [repr] of the float, the shortest decimal
    text that reads back as the same double.  It is never the text of an
    integer: a whole number of seconds is written with [.0].  (The digits
    are those of the microsecond count as long as doubles are spaced more
    finely than microseconds, that is for instants within 2^33 seconds of
    the epoch.) *)
Definition str_timestamp (d : datetime) : string :=
  let t := timestamp_us d in
  (if Z.ltb t 0 then "-" else "") +:+
  (if Z.ltb 0 (Z.abs t) && Z.ltb (Z.abs t) 100 then tiny_repr (Z.abs t)
   else str_int (Z.abs t / 1000000) +:+ "." +:+ fraction_digits (Z.abs t mod 1000000)).

(** [str(int(d.timestamp()))]: the integer rendering (truncation toward
    zero), which is what the repository's test compares against. *)
Definition str_int_timestamp (d : datetime) : string :=
  str_int (Z.quot (timestamp_us d) 1000000).

(** ** Field validation

    The models are pydantic models; the library is not part of the
    repository, so the scalar validators (what input is accepted for an
    [int], a [str], a [bool] or a [datetime] field) and the text of its
    error report are taken as an interface.  What the model declarations
    themselves fix is modelled below: which fields are required, which are
    nullable, and which have a default.

    The repository is written against the second major version of the
    library ([model_dump] in [src/server.py], [populate_by_name] in the
    model's [Config]).  There an annotation [Optional[T]] makes a field
    nullable and nothing more: a field is optional only when it is given a
    default. *)

Class Pydantic := {
  validate_int : json → option Z;
  validate_str : json → option string;
  validate_bool : json → option bool;
  validate_datetime : json → option datetime;
  describe_errors : string → list (string * FieldError) → string;
}.

(** [Optional[T]]: [None] is accepted as such, anything else must be a [T]. *)
Definition nullable {A} (v : json → option A) (j : json) : option (option A) :=
  match j with
  | JNull => Some None
  | _ => match v j with Some a => Some (Some a) | None => None end
  end.

(** A field declared without a default must be supplied. *)
Definition required {A} (v : json → option A) (o : option json) : FieldError + A :=
  match o with
  | None => inl Missing
  | Some j => match v j with Some a => inr a | None => inl Invalid end
  end.

(** A field declared with a default takes it when the key is not supplied. *)
Definition defaulted {A} (v : json → option A) (d : A) (o : option json) : FieldError + A :=
  match o with
  | None => inr d
  | Some j => match v j with Some a => inr a | None => inl Invalid end
  end.

Definition field_errors {A} (name : string) (r : FieldError + A) : list (string * FieldError) :=
  match r with inl e => [(name, e)] | inr _ => [] end.

(** ** Request descriptors *)

Inductive SortOrder := asc | desc.

Definition str_sort_order (o : SortOrder) : string :=
  match o with asc => "asc" | desc => "desc" end.

Module GetSingleArticleRequest.
Record t := { id : Z }.
End GetSingleArticleRequest.

Module SearchArticlesRequest.
Record t := { search_term : string; count : option Z }.
End SearchArticlesRequest.

Module GetArticlesRequest.
Record t := {
  is_archived : bool;
  since : option datetime;
  domain : option string;
  count : option Z;
  sort_order : SortOrder;
  include_content : bool;
}.

(** The descriptor built with every field at its declared default. *)
Definition default : t :=
  {| is_archived := false; since := None; domain := None; count := None;
     sort_order := desc; include_content := false |}.
End GetArticlesRequest.

(** ** The article model *)

Module Article.
Record t := {
  id : Z;
  title : string;
  url : string;
  content : option string;
  created_at : datetime;
  updated_at : datetime;
  reading_time : option Z;
  domain_name : option string;
  preview_picture : option string;
  http_status : option string;
  is_archived : bool;
  is_starred : bool;
}.

Section Init.
Context `{pyd : Pydantic}.

(** The constructor call on keyword arguments [kw].  Keys that name no
    field are ignored.  [id], [title], [url], [created_at] and [updated_at]
    are required.  [content] is declared [Optional[str]] with no default: it
    may be [None], but the key must be there.  The four other optional
    fields are declared with [= None] and the two flags with [= False].
    Every failing field is reported, in declaration order. *)
Definition init (kw : gmap string json) : result t :=
  let r_id := required validate_int (kw !! "id") in
  let r_title := required validate_str (kw !! "title") in
  let r_url := required validate_str (kw !! "url") in
  let r_content := required (nullable validate_str) (kw !! "content") in
  let r_created_at := required validate_datetime (kw !! "created_at") in
  let r_updated_at := required validate_datetime (kw !! "updated_at") in
  let r_reading_time := defaulted (nullable validate_int) None (kw !! "reading_time") in
  let r_domain_name := defaulted (nullable validate_str) None (kw !! "domain_name") in
  let r_preview_picture := defaulted (nullable validate_str) None (kw !! "preview_picture") in
  let r_http_status := defaulted (nullable validate_str) None (kw !! "http_status") in
  let r_is_archived := defaulted validate_bool false (kw !! "is_archived") in
  let r_is_starred := defaulted validate_bool false (kw !! "is_starred") in
  let errors :=
    field_errors "id" r_id ++ field_errors "title" r_title ++
    field_errors "url" r_url ++ field_errors "content" r_content ++
    field_errors "created_at" r_created_at ++
    field_errors "updated_at" r_updated_at ++
    field_errors "reading_time" r_reading_time ++
    field_errors "domain_name" r_domain_name ++
    field_errors "preview_picture" r_preview_picture ++
    field_errors "http_status" r_http_status ++
    field_errors "is_archived" r_is_archived ++
    field_errors "is_starred" r_is_starred in
  match r_id, r_title, r_url, r_content, r_created_at, r_updated_at,
        r_reading_time, r_domain_name, r_preview_picture, r_http_status,
        r_is_archived, r_is_starred with
  | inr i, inr ti, inr u, inr c, inr ca, inr ua,
    inr rt, inr dn, inr pp, inr hs, inr ar, inr st =>
      Ok {| id := i; title := ti; url := u; content := c;
            created_at := ca; updated_at := ua; reading_time := rt;
            domain_name := dn; preview_picture := pp; http_status := hs;
            is_archived := ar; is_starred := st |}
  | _, _, _, _, _, _, _, _, _, _, _, _ =>
      Raise (ValidationError (describe_errors "Article" errors) errors)
  end.

(** The constructor call on an unpacked value [x]: keyword unpacking
    needs a mapping.  (Python names the callable by its module, which
    [src/server.py] and [src/client_test.py] import as [wallabag_client].) *)
Definition init_from (x : json) : result t :=
  match x with
  | JObj kw => init kw
  | _ => Raise (TypeError ("wallabag_client.Article() argument after ** must be a mapping, not "
                           +:+ type_name x))
  end.
End Init.
End Article.

(** ** The transport

    A request as handed to the transport's [request] method.  Query
    parameters and headers keep the insertion order of the dictionaries they
    come from. *)

Definition handle := nat.

(** The one header the client sets, [Authorization: Bearer {token}].  The
    token is whatever the server put under [access_token]; it is kept as
    the value it is rather than as the text [str] makes of it. *)
Inductive Header :=
| Authorization_Bearer (token : json).

Record Request := {
  req_method : string;
  req_url : string;
  req_params : option (list (string * string));
  req_data : option (list (string * string));
  req_headers : option (list Header);
}.

(** A response: its status, its body text, and what [json()] makes of the
    body: the decoded value, or the exception the decoding raises (a
    [JSONDecodeError] for text that is not JSON, a [UnicodeDecodeError] for
    bytes that are not text at all). *)
Record Response := {
  status_code : Z;
  text : string;
  decoded : exn + json;
}.

Definition Response_json (r : Response) : result json :=
  match decoded r with
  | inr j => Ok j
  | inl e => Raise e
  end.

Definition is_success (r : Response) : bool :=
  Z.leb 200 (status_code r) && Z.leb (status_code r) 299.

Definition raise_for_status (r : Response) : result unit :=
  if is_success r then Ok tt
  else Raise (HTTPStatusError (status_code r) (text r)).

(** What the far end does with a request: it answers, or the attempt
    raises (a [RequestError] for a connection, timeout or DNS failure). *)
Inductive Reply :=
| Responds (r : Response)
| Fails (e : exn).

Inductive Event :=
| Opened (h : handle)
| Sent (h : handle) (r : Request)
| Closed (h : handle).

(** Everything outside the client object: the process environment, the
    remote server, the clock, the transport handles handed out so far and
    the log of what happened on them (oldest first). *)
Record World := {
  environ : gmap string string;
  network : Request → Reply;
  now : datetime;
  next_handle : handle;
  trace : list Event;
}.

Definition log (ev : Event) (w : World) : World :=
  {| environ := environ w; network := network w; now := now w;
     next_handle := next_handle w; trace := trace w ++ [ev] |}.

Definition fresh_handle (w : World) : World :=
  {| environ := environ w; network := network w; now := now w;
     next_handle := S (next_handle w); trace := trace w ++ [Opened (next_handle w)] |}.

(** The requests issued so far. *)
Definition sent (w : World) : list Request :=
  omap (λ ev, match ev with Sent _ r => Some r | _ => None end) (trace w).

(** The handles released so far. *)
Definition closed (w : World) : list handle :=
  omap (λ ev, match ev with Closed h => Some h | _ => None end) (trace w).

(** ** The client *)

Record WallabagClient := {
  base_url : string;
  access_token : json;
  _client : option handle;
}.

Definition set_access_token (tok : json) (c : WallabagClient) : WallabagClient :=
  {| base_url := base_url c; access_token := tok; _client := _client c |}.

(** A method runs against the client object and the world around it. *)
Record Session := {
  self : WallabagClient;
  world : World;
}.

Definition on_world (f : World → World) (s : Session) : Session :=
  {| self := self s; world := f (world s) |}.
Definition on_self (f : WallabagClient → WallabagClient) (s : Session) : Session :=
  {| self := f (self s); world := world s |}.

(** [a or b] on optional strings: [a] when it is truthy, else [b]. *)
Definition or_else (a b : option string) : option string :=
  match a with
  | Some s => if str_truthy s then Some s else b
  | None => b
  end.

Definition getenv (w : World) (k : string) : option string := environ w !! k.

(** [x.get(k, default)]: only dictionaries have the method. *)
Definition py_get (x : json) (k : string) (dflt : json) : result json :=
  match x with
  | JObj m => Ok (default dflt (m !! k))
  | _ => Raise (AttributeError ("'" +:+ type_name x +:+ "' object has no attribute 'get'"))
  end.

(** Iterating a value in a comprehension: a list yields its items, a
    dictionary its keys, a string its characters; nothing else iterates. *)
Definition py_iter (x : json) : result (list json) :=
  match x with
  | JArr l => Ok l
  | JObj m => Ok (JStr <$> (map_to_list m).*1)
  | JStr s => Ok ((λ c, JStr (String c "")) <$> list_ascii_of_string s)
  | _ => Raise (TypeError ("'" +:+ type_name x +:+ "' object is not iterable"))
  end.

Definition ConfigError_base_url : string :=
  "Wallabag base URL is not set. Provide it or set WALLABAG_BASE_URL environment variable.".

Definition ConfigError_credentials : string :=
  "Missing required authentication parameters. Please provide client_id, client_secret, username, and password or set corresponding WALLABAG_ environment variables.".

Definition AuthError_no_token : string :=
  "Access token is not set. Please authenticate first.".

Definition AuthError_no_access_token : string :=
  "Authentication successful, but no access token received.".

(** [WallabagClient(base_url, client)]. *)
Definition WallabagClient_init (base_url : option string) (client : option handle)
  : M World WallabagClient :=
  let* w := get in
  match or_else base_url (getenv w "WALLABAG_BASE_URL") with
  | Some u =>
      if str_truthy u
      then ret {| base_url := u; access_token := JNull; _client := client |}
      else raise (WallabagConfigError ConfigError_base_url)
  | None => raise (WallabagConfigError ConfigError_base_url)
  end.

(** [httpx.AsyncClient()]: a new transport handle. *)
Definition AsyncClient_new : M Session handle :=
  let* s := get in
  modify (on_world fresh_handle) ;;
  ret (next_handle (world s)).

(** [client.request(...)]: the request goes out on the handle and the far
    end answers or the attempt raises. *)
Definition client_request (h : handle) (r : Request) : M Session Response :=
  modify (on_world (log (Sent h r))) ;;
  let* s := get in
  match network (world s) r with
  | Responds resp => ret resp
  | Fails e => raise e
  end.

Definition aclose (h : handle) : M Session unit :=
  modify (on_world (log (Closed h))).

(** [self._request(method, url, params, data, headers)]. *)
Definition _request (method url : string)
    (params data : option (list (string * string))) (headers : option (list Header))
  : M Session Response :=
  let* s := get in
  let* client :=
    match _client (self s) with
    | Some h => ret h
    | None => AsyncClient_new
    end in
  try_finally
    (try_except
       (let* response :=
          client_request client
            {| req_method := method; req_url := url; req_params := params;
               req_data := data; req_headers := headers |} in
        lift_result (raise_for_status response) ;;
        ret response)
       (λ e,
          match e with
          | HTTPStatusError code body =>
              Some (raise (WallabagApiError
                             ("API request failed: " +:+ str_int code +:+ " - " +:+ body)))
          | RequestError m =>
              Some (raise (WallabagApiError ("Request failed: " +:+ m)))
          | _ => None
          end))
    (let* s' := get in
     match _client (self s') with
     | None => aclose client
     | Some _ => ret tt
     end).

(** [self.authenticate(client_id, client_secret, username, password)]. *)
Definition authenticate (client_id client_secret username password : option string)
  : M Session bool :=
  let* s := get in
  let url := base_url (self s) +:+ "/oauth/v2/token" in
  let d_client_id := or_else client_id (getenv (world s) "WALLABAG_CLIENT_ID") in
  let d_client_secret := or_else client_secret (getenv (world s) "WALLABAG_CLIENT_SECRET") in
  let d_username := or_else username (getenv (world s) "WALLABAG_USERNAME") in
  let d_password := or_else password (getenv (world s) "WALLABAG_PASSWORD") in
  match d_client_id, d_client_secret, d_username, d_password with
  | Some cid, Some csec, Some user, Some pw =>
      let data :=
        [("grant_type", "password"); ("client_id", cid); ("client_secret", csec);
         ("username", user); ("password", pw)] in
      let* token_data :=
        try_except
          (let* response := _request "GET" url (Some data) None None in
           lift_result (Response_json response))
          (λ e,
             match e with
             | JSONDecodeError m =>
                 Some (raise (WallabagAuthError
                                ("Failed to parse authentication response: " +:+ m)))
             | WallabagApiError m =>
                 Some (raise (WallabagAuthError ("Authentication failed: " +:+ m)))
             | _ => None
             end) in
      let* tok := lift_result (py_get token_data "access_token" JNull) in
      modify (on_self (set_access_token tok)) ;;
      let* s' := get in
      if negb (truthy (access_token (self s')))
      then raise (WallabagAuthError AuthError_no_access_token)
      else ret true
  | _, _, _, _ => raise (WallabagConfigError ConfigError_credentials)
  end.

(** The [perPage] parameter: [str(count) if count else "100"]. *)
Definition per_page (count : option Z) : string :=
  match count with
  | Some n => if Z.eqb n 0 then "100" else str_int n
  | None => "100"
  end.

(** The query parameters of [get_articles], in the order the dictionary is
    built: the five fixed keys, then [domain_name] when [domain] is truthy. *)
Definition get_articles_params (req : GetArticlesRequest.t) : list (string * string) :=
  [("archive", if GetArticlesRequest.is_archived req then "1" else "0");
   ("perPage", per_page (GetArticlesRequest.count req));
   ("since", match GetArticlesRequest.since req with
             | Some d => str_timestamp d
             | None => "0"
             end);
   ("order", str_sort_order (GetArticlesRequest.sort_order req));
   ("detail", if GetArticlesRequest.include_content req then "full" else "metadata")]
  ++ match GetArticlesRequest.domain req with
     | Some d => if str_truthy d then [("domain_name", d)] else []
     | None => []
     end.

Definition search_articles_params (req : SearchArticlesRequest.t) : list (string * string) :=
  [("term", SearchArticlesRequest.search_term req);
   ("perPage", per_page (SearchArticlesRequest.count req))].

(** The [try] block shared by the three read operations: the request, then
    [json()], with a decoding failure turned into an API error and an API
    error re-raised as it is. *)
Definition fetch_json (what : string) (url : string)
    (params : option (list (string * string))) (headers : option (list Header))
  : M Session json :=
  try_except
    (let* response := _request "GET" url params None headers in
     lift_result (Response_json response))
    (λ e,
       match e with
       | JSONDecodeError m =>
           Some (raise (WallabagApiError ("Failed to parse " +:+ what +:+ " response: " +:+ m)))
       | WallabagApiError m => Some (raise (WallabagApiError m))
       | _ => None
       end).

Section ReadOperations.
Context `{pyd : Pydantic}.

(** [response_data.get("_embedded", {}).get("items", [])], then one
    [Article] per item. *)
Definition articles_of (response_data : json) : result (list Article.t) :=
  and_then (py_get response_data "_embedded" (JObj ∅)) (λ embedded,
  and_then (py_get embedded "items" (JArr [])) (λ articles_data,
  and_then (py_iter articles_data) (λ items,
  comprehension Article.init_from items))).

Definition search_articles (req : SearchArticlesRequest.t) : M Session (list Article.t) :=
  let* s := get in
  if negb (truthy (access_token (self s)))
  then raise (WallabagAuthError AuthError_no_token)
  else
    let url := base_url (self s) +:+ "/api/search" in
    let params := search_articles_params req in
    let headers := [Authorization_Bearer (access_token (self s))] in
    let* response_data := fetch_json "articles" url (Some params) (Some headers) in
    lift_result (articles_of response_data).

Definition get_single_article (req : GetSingleArticleRequest.t) : M Session Article.t :=
  let* s := get in
  if negb (truthy (access_token (self s)))
  then raise (WallabagAuthError AuthError_no_token)
  else
    let url := base_url (self s) +:+ "/api/entries/" +:+ str_int (GetSingleArticleRequest.id req) in
    let headers := [Authorization_Bearer (access_token (self s))] in
    let* response_data := fetch_json "article" url None (Some headers) in
    lift_result (Article.init_from response_data).

Definition get_articles (req : GetArticlesRequest.t) : M Session (list Article.t) :=
  let* s := get in
  if negb (truthy (access_token (self s)))
  then raise (WallabagAuthError AuthError_no_token)
  else
    let url := base_url (self s) +:+ "/api/entries" in
    let params := get_articles_params req in
    let headers := [Authorization_Bearer (access_token (self s))] in
    let* response_data := fetch_json "articles" url (Some params) (Some headers) in
    lift_result (articles_of response_data).
End ReadOperations.

(** ** The tool adapters ([src/server.py])

    The module keeps one client in a global, created and authenticated on
    first use.  The adapters answer with JSON text; the envelope is kept
    here as the structure that is serialised. *)

Record Server := {
  client : option WallabagClient;
  process : World;
}.

Inductive ToolOutput :=
| SingleArticle (wallabag_article : Article.t)
| SavedArticles (count : nat) (saved_wallabag_articles : list Article.t)
| SearchResults (count : nat) (articles : list Article.t)
| Failure (error : string).

(** The [success] member of the envelope. *)
Definition success (o : ToolOutput) : bool :=
  match o with Failure _ => false | _ => true end.

(** A world-level computation run from the server. *)
Definition in_process {A} (m : M World A) : M Server A :=
  λ sv, match m (process sv) with
        | (r, w) => (r, {| client := client sv; process := w |})
        end.

(** A method call on a client object that only the caller holds; on
    success the object comes back with the call's result. *)
Definition call_on {A} (c : WallabagClient) (m : M Session A) : M World (A * WallabagClient) :=
  λ w, match m {| self := c; world := w |} with
       | (Ok a, s) => (Ok (a, self s), world s)
       | (Raise e, s) => (Raise e, world s)
       end.

(** A method call on the object the global refers to: whatever the method
    did to the object is what the global sees afterwards. *)
Definition call_on_global {A} (c : WallabagClient) (m : M Session A) : M Server A :=
  λ sv, match m {| self := c; world := process sv |} with
        | (r, s) => (r, {| client := Some (self s); process := world s |})
        end.

Definition set_client (c : WallabagClient) : M Server unit :=
  modify (λ sv, {| client := Some c; process := process sv |}).

Definition initialize_client : M World WallabagClient :=
  let* c := WallabagClient_init None None in
  let* authenticated := call_on c (authenticate None None None None) in
  ret (snd authenticated).

(** [if client is None: client = await initialize_client()], the statement
    each adapter runs before it enters its [try] block. *)
Definition ensure_client : M Server WallabagClient :=
  let* sv := get in
  match client sv with
  | Some c => ret c
  | None =>
      let* c := in_process initialize_client in
      set_client c ;;
      ret c
  end.

(** [except Exception as e: return json.dumps({"success": False, "error": str(e)})]. *)
Definition failure_envelope (e : exn) : option (M Server ToolOutput) :=
  Some (ret (Failure (str_exn e))).

(** [timedelta(days=n)]: the number of days is first converted to a C
    [int], which fails outside 32 bits, and is then refused when its
    magnitude exceeds 999999999. *)
Definition timedelta_days (n : Z) : result Z :=
  if Z.ltb n (-2147483648) || Z.ltb 2147483647 n
  then Raise (OverflowError "Python int too large to convert to C int")
  else if Z.ltb 999999999 (Z.abs n)
  then Raise (OverflowError ("days=" +:+ str_int n +:+ "; must have magnitude <= 999999999"))
  else Ok n.

(** [datetime.now() - timedelta(days=n)], for a process whose local zone is
    UTC: the number of days must be one [timedelta] takes, and the
    difference must stay within the years 1 to 9999.  (The properties below
    use the first failure only; a difference within a day of the ends of
    the calendar is a naive datetime without a timestamp, see Timestamps.) *)
Definition datetime_min_us : Z := -62135596800000000.
Definition datetime_max_us : Z := 253402300799999999.

Definition days_ago (n : Z) : M World datetime :=
  let* w := get in
  let* days := lift_result (timedelta_days n) in
  let t := timestamp_us (now w) - days * 86400000000 in
  if Z.leb datetime_min_us t && Z.leb t datetime_max_us
  then ret {| timestamp_us := t |}
  else raise (OverflowError "date value out of range").

Module server.
Section Tools.
Context `{pyd : Pydantic}.

Definition get_single_wallabag_article (id : Z) : M Server ToolOutput :=
  let* c := ensure_client in
  try_except
    (let request := {| GetSingleArticleRequest.id := id |} in
     let* article := call_on_global c (get_single_article request) in
     ret (SingleArticle article))
    failure_envelope.

Definition get_wallabag_articles (is_archived : bool) (domain : option string)
    (since_days_ago : option Z) (count : option Z) (sort_order : SortOrder)
    (include_content : bool) : M Server ToolOutput :=
  let* c := ensure_client in
  try_except
    (let* since_date :=
       match since_days_ago with
       | Some n => let* d := in_process (days_ago n) in ret (Some d)
       | None => ret None
       end in
     let request :=
       {| GetArticlesRequest.is_archived := is_archived;
          GetArticlesRequest.domain := domain;
          GetArticlesRequest.since := since_date;
          GetArticlesRequest.count := count;
          GetArticlesRequest.sort_order := sort_order;
          GetArticlesRequest.include_content := include_content |} in
     let* articles := call_on_global c (get_articles request) in
     ret (SavedArticles (length articles) articles))
    failure_envelope.

Definition search_articles (search_term : string) (count : option Z)
  : M Server ToolOutput :=
  let* c := ensure_client in
  try_except
    (let request :=
       {| SearchArticlesRequest.search_term := search_term;
          SearchArticlesRequest.count := count |} in
     let* articles := call_on_global c (search_articles request) in
     ret (SearchResults (length articles) articles))
    failure_envelope.
End Tools.
End server.

(** ** The query string

    The transport writes the parameters into the URL in dictionary order, as
    [key=value] pairs joined by [&]; a space is written [+] and any other
    character outside the unreserved set is percent-escaped. *)

Definition unreserved (c : ascii) : bool :=
  let n := N_of_ascii c in
  (N.leb 48 n && N.leb n 57) || (N.leb 65 n && N.leb n 90) ||
  (N.leb 97 n && N.leb n 122) ||
  N.eqb n 45 || N.eqb n 46 || N.eqb n 95 || N.eqb n 126.

Definition hex_digit (n : N) : ascii :=
  ascii_of_N (if N.ltb n 10 then 48 + n else 55 + n).

Fixpoint percent_encode (s : string) : string :=
  match s with
  | EmptyString => EmptyString
  | String c s' =>
      if unreserved c then String c (percent_encode s')
      else if Ascii.eqb c " " then String "+" (percent_encode s')
      else
        let n := N_of_ascii c in
        String "%" (String (hex_digit (N.div n 16))
                      (String (hex_digit (N.modulo n 16)) (percent_encode s')))
  end.

Fixpoint join (sep : string) (l : list string) : string :=
  match l with
  | [] => ""
  | [x] => x
  | x :: l' => x +:+ sep +:+ join sep l'
  end.

Definition query_string (params : list (string * string)) : string :=
  join "&" ((λ kv, percent_encode kv.1 +:+ "=" +:+ percent_encode kv.2) <$> params).

Fixpoint starts_with (p s : string) : bool :=
  match p, s with
  | EmptyString, _ => true
  | String a p', String b s' => Ascii.eqb a b && starts_with p' s'
  | String _ _, EmptyString => false
  end.

(** [needle in hay]. *)
Fixpoint contains (needle hay : string) : bool :=
  starts_with needle hay ||
  match hay with
  | EmptyString => false
  | String _ hay' => contains needle hay'
  end.

(** ** A validator set for payloads in wire form

    An instance of the validation interface that accepts the JSON-native
    form of each scalar (an integer for [int], a string for [str], a
    boolean for [bool]) and, for [datetime], a UTC timestamp written
    [YYYY-MM-DDTHH:MM:SSZ].  It is used to run the model on concrete
    payloads; the library itself accepts more (digits in a string for an
    [int], other timestamp formats) and its report goes on after the first
    line, which is all that [describe_errors] gives here. *)

Definition digit_of (c : ascii) : option Z :=
  let n := N_of_ascii c in
  if N.leb 48 n && N.leb n 57 then Some (Z.of_N n - 48) else None.

Fixpoint number_of (acc : Z) (s : string) : option Z :=
  match s with
  | EmptyString => Some acc
  | String c s' =>
      match digit_of c with
      | Some d => number_of (10 * acc + d) s'
      | None => None
      end
  end.

Definition is_leap (y : Z) : bool :=
  Z.eqb (y mod 4) 0 && (negb (Z.eqb (y mod 100) 0) || Z.eqb (y mod 400) 0).

Definition days_in_month (y m : Z) : Z :=
  if Z.eqb m 2 then (if is_leap y then 29 else 28)
  else if Z.eqb m 4 || Z.eqb m 6 || Z.eqb m 9 || Z.eqb m 11 then 30
  else 31.

(** Days from 1970-01-01 to the given date of the proleptic Gregorian
    calendar. *)
Definition days_from_civil (y m d : Z) : Z :=
  let y' := if Z.leb m 2 then y - 1 else y in
  let era := y' / 400 in
  let yoe := y' - era * 400 in
  let doy := (153 * (if Z.ltb 2 m then m - 3 else m + 9) + 2) / 5 + d - 1 in
  let doe := yoe * 365 + yoe / 4 - yoe / 100 + doy in
  era * 146097 + doe - 719468.

Definition char_at (n : nat) (s : string) (c : ascii) : bool :=
  match String.get n s with
  | Some c' => Ascii.eqb c c'
  | None => false
  end.

Definition parse_utc (s : string) : option datetime :=
  if Nat.eqb (String.length s) 20 &&
     char_at 4 s "-" && char_at 7 s "-" && char_at 10 s "T" &&
     char_at 13 s ":" && char_at 16 s ":" && char_at 19 s "Z"
  then
    match number_of 0 (substring 0 4 s), number_of 0 (substring 5 2 s),
          number_of 0 (substring 8 2 s), number_of 0 (substring 11 2 s),
          number_of 0 (substring 14 2 s), number_of 0 (substring 17 2 s) with
    | Some y, Some m, Some d, Some hh, Some mm, Some ss =>
        if Z.leb 1 y && Z.leb 1 m && Z.leb m 12 && Z.leb 1 d &&
           Z.leb d (days_in_month y m) && Z.ltb hh 24 && Z.ltb mm 60 && Z.ltb ss 60
        then Some {| timestamp_us :=
                       (days_from_civil y m d * 86400 + hh * 3600 + mm * 60 + ss) * 1000000 |}
        else None
    | _, _, _, _, _, _ => None
    end
  else None.

#[export] Instance wire_form : Pydantic := {|
  validate_int := λ j, match j with JInt n => Some n | _ => None end;
  validate_str := λ j, match j with JStr s => Some s | _ => None end;
  validate_bool := λ j, match j with JBool b => Some b | _ => None end;
  validate_datetime := λ j, match j with JStr s => parse_utc s | _ => None end;
  describe_errors := λ model errors,
    pretty (length errors) +:+ " validation error" +:+
    (if Nat.eqb (length errors) 1 then "" else "s") +:+ " for " +:+ model;
|}.

(** * Definitions used in the statements *)

(** What the caller of [_request] sees for each behaviour of the far end. *)
Definition request_outcome (reply : Reply) : result Response :=
  match reply with
  | Responds r =>
      if is_success r then Ok r
      else Raise (WallabagApiError
                    ("API request failed: " +:+ str_int (status_code r) +:+ " - " +:+ text r))
  | Fails (HTTPStatusError code body) =>
      Raise (WallabagApiError ("API request failed: " +:+ str_int code +:+ " - " +:+ body))
  | Fails (RequestError m) => Raise (WallabagApiError ("Request failed: " +:+ m))
  | Fails e => Raise e
  end.

(** What one call of [_request] appends to the log. *)
Definition request_events (c : WallabagClient) (w : World) (rq : Request) : list Event :=
  match _client c with
  | Some h => [Sent h rq]
  | None => [Opened (next_handle w); Sent (next_handle w) rq; Closed (next_handle w)]
  end.

Definition after_request (rq : Request) (s : Session) : Session :=
  {| self := self s;
     world :=
       {| environ := environ (world s); network := network (world s);
          now := now (world s);
          next_handle := match _client (self s) with
                         | Some _ => next_handle (world s)
                         | None => S (next_handle (world s))
                         end;
          trace := trace (world s) ++ request_events (self s) (world s) rq |} |}.

Definition mk_request (method url : string)
    (params data : option (list (string * string))) (headers : option (list Header))
  : Request :=
  {| req_method := method; req_url := url; req_params := params;
     req_data := data; req_headers := headers |}.

(** What the shared [try] block yields for each behaviour of the far end. *)
Definition fetch_outcome (what : string) (reply : Reply) : result json :=
  match request_outcome reply with
  | Ok r =>
      match decoded r with
      | inr j => Ok j
      | inl (JSONDecodeError m) =>
          Raise (WallabagApiError ("Failed to parse " +:+ what +:+ " response: " +:+ m))
      | inl e => Raise e
      end
  | Raise (JSONDecodeError m) =>
      Raise (WallabagApiError ("Failed to parse " +:+ what +:+ " response: " +:+ m))
  | Raise e => Raise e
  end.

(** The requests the read operations hand to the transport. *)
Definition entries_request (c : WallabagClient) (req : GetArticlesRequest.t) : Request :=
  mk_request "GET" (base_url c +:+ "/api/entries")
    (Some (get_articles_params req)) None
    (Some [Authorization_Bearer (access_token c)]).

Definition search_request (c : WallabagClient) (req : SearchArticlesRequest.t) : Request :=
  mk_request "GET" (base_url c +:+ "/api/search")
    (Some (search_articles_params req)) None
    (Some [Authorization_Bearer (access_token c)]).

Definition entry_request (c : WallabagClient) (req : GetSingleArticleRequest.t) : Request :=
  mk_request "GET" (base_url c +:+ "/api/entries/" +:+ str_int (GetSingleArticleRequest.id req))
    None None
    (Some [Authorization_Bearer (access_token c)]).

(** ** Sample worlds, sessions and payloads *)

Definition epoch : datetime := {| timestamp_us := 0 |}.

(** A process with an empty environment and no reachable server. *)
Definition offline : World :=
  {| environ := ∅;
     network := λ _, Fails (RequestError "All connection attempts failed");
     now := epoch; next_handle := 0%nat; trace := [] |}.

(** A server that gives every request the same response. *)
Definition replying (resp : Response) : World :=
  {| environ := ∅; network := λ _, Responds resp;
     now := epoch; next_handle := 0%nat; trace := [] |}.

(** A server that answers every request with status 200 and the given
    JSON body. *)
Definition answering (body : json) : World :=
  replying {| status_code := 200; text := ""; decoded := inr body |}.

(** The client as its constructor leaves it, and after a successful
    authentication. *)
Definition new_client : WallabagClient :=
  {| base_url := "http://test-wallabag.com"; access_token := JNull; _client := None |}.

Definition authenticated_client : WallabagClient :=
  set_access_token (JStr "test_access_token") new_client.

Definition a_timestamp : datetime := {| timestamp_us := 1672531200000000 |}.

(** An integer numeric string: an optional minus sign, then digits only. *)
Fixpoint all_digits (s : string) : bool :=
  match s with
  | EmptyString => true
  | String c s' => bool_decide (is_Some (digit_of c)) && all_digits s'
  end.

Definition is_integer_text (s : string) : bool :=
  match s with
  | EmptyString => false
  | String c s' =>
      if Ascii.eqb c "-" then negb (String.eqb s' "") && all_digits s'
      else all_digits s
  end.

(** The token request. *)
Definition token_request (c : WallabagClient) (cid csec user pw : string) : Request :=
  mk_request "GET" (base_url c +:+ "/oauth/v2/token")
    (Some [("grant_type", "password"); ("client_id", cid); ("client_secret", csec);
           ("username", user); ("password", pw)])
    None None.

(** What the [try] block of [authenticate] yields for each behaviour of the
    far end. *)
Definition token_outcome (reply : Reply) : result json :=
  match request_outcome reply with
  | Ok r =>
      match decoded r with
      | inr j => Ok j
      | inl (JSONDecodeError m) =>
          Raise (WallabagAuthError ("Failed to parse authentication response: " +:+ m))
      | inl (WallabagApiError m) =>
          Raise (WallabagAuthError ("Authentication failed: " +:+ m))
      | inl e => Raise e
      end
  | Raise (JSONDecodeError m) =>
      Raise (WallabagAuthError ("Failed to parse authentication response: " +:+ m))
  | Raise (WallabagApiError m) => Raise (WallabagAuthError ("Authentication failed: " +:+ m))
  | Raise e => Raise e
  end.

(** A server that answers the token request with an empty-string token. *)
Definition empty_token_body : json := JObj {[ "access_token" := JStr "" ]}.

(** A process whose environment is fully configured but whose server turns
    the token request down. *)
Definition rejecting : World :=
  {| environ := list_to_map [("WALLABAG_BASE_URL", "http://test-wallabag.com");
                             ("WALLABAG_CLIENT_ID", "cid");
                             ("WALLABAG_CLIENT_SECRET", "csecret");
                             ("WALLABAG_USERNAME", "user");
                             ("WALLABAG_PASSWORD", "pw")];
     network := λ _, Responds {| status_code := 401; text := "invalid_grant";
                                 decoded := inl (JSONDecodeError "Expecting value") |};
     now := epoch; next_handle := 0%nat; trace := [] |}.

(** An entry as the server lists it when the content was not asked for:
    every required key of the claim is there, [content] is not. *)
Definition entry_without_content : gmap string json :=
  list_to_map [("id", JInt 1); ("title", JStr "A"); ("url", JStr "http://x");
               ("created_at", JStr "2023-01-01T10:00:00Z");
               ("updated_at", JStr "2023-01-01T11:00:00Z");
               ("is_archived", JBool false); ("is_starred", JBool true)].

(** The entry of the specification's example scenario. *)
Definition entry_with_content : gmap string json :=
  <["content" := JStr "c"]> entry_without_content.

(** An entry with every field present. *)
Definition entry_full : gmap string json :=
  list_to_map [("id", JInt 1); ("title", JStr "Article 1");
               ("url", JStr "http://example.com/1"); ("content", JStr "Content 1");
               ("created_at", JStr "2023-01-01T10:00:00Z");
               ("updated_at", JStr "2023-01-01T11:00:00Z");
               ("is_archived", JBool false); ("is_starred", JBool true);
               ("reading_time", JInt 5); ("domain_name", JStr "example.com");
               ("preview_picture", JStr "http://img.com/1.jpg");
               ("http_status", JStr "200")].

(** The second entry of the repository's test payload. *)
Definition entry_second : gmap string json :=
  list_to_map [("id", JInt 2); ("title", JStr "Article 2");
               ("url", JStr "http://example.com/2"); ("content", JStr "Content 2");
               ("created_at", JStr "2023-01-02T12:00:00Z");
               ("updated_at", JStr "2023-01-02T13:00:00Z");
               ("reading_time", JInt 10); ("domain_name", JStr "example.org");
               ("preview_picture", JNull); ("http_status", JNull);
               ("is_archived", JBool true); ("is_starred", JBool false)].

Definition token_body (tok : string) : json :=
  JObj (list_to_map [("access_token", JStr tok); ("expires_in", JInt 3600);
                     ("token_type", JStr "Bearer")]).

Definition articles_body (entries : list (gmap string json)) : json :=
  JObj {[ "_embedded" := JObj {[ "items" := JArr (JObj <$> entries) ]} ]}.

(** The query string of the last request that went out. *)
Definition last_query (w : World) : option string :=
  match last (sent w) with
  | Some rq => query_string <$> req_params rq
  | None => None
  end.

(** ** The command-line check ([src/client_test.py])

    [main] builds a client from the environment, authenticates it and
    fetches entry 59; nothing is caught.  ([load_dotenv], here and in
    [src/server.py], runs first: [environ] is the environment it leaves.) *)

Definition main `{pyd : Pydantic} : M World unit :=
  let* c := WallabagClient_init None None in
  let* authenticated := call_on c (authenticate None None None None) in
  let* fetched :=
    call_on (snd authenticated)
      (get_single_article {| GetSingleArticleRequest.id := 59 |}) in
  ret tt.

(** ** Further definitions for the statements *)

(** The handles opened so far. *)
Definition opened (w : World) : list handle :=
  omap (λ ev, match ev with Opened h => Some h | _ => None end) (trace w).

(** An environment that holds the base URL and the four credentials. *)
Definition configured_environ : gmap string string :=
  list_to_map [("WALLABAG_BASE_URL", "http://test-wallabag.com");
               ("WALLABAG_CLIENT_ID", "cid");
               ("WALLABAG_CLIENT_SECRET", "csecret");
               ("WALLABAG_USERNAME", "user");
               ("WALLABAG_PASSWORD", "pw")].

(** A configured process whose server gives one response to the token
    request (the only request without an [Authorization] header) and another
    to every authenticated request. *)
Definition wallabag (token_resp data_resp : Response) : World :=
  {| environ := configured_environ;
     network := λ rq, match req_headers rq with
                      | None => Responds token_resp
                      | Some _ => Responds data_resp
                      end;
     now := epoch; next_handle := 0%nat; trace := [] |}.

Definition ok_response (body : json) : Response :=
  {| status_code := 200; text := ""; decoded := inr body |}.


(** How a credential is given: as a non-empty argument, or, the argument
    being [None] or empty, by the environment variable of that name. *)
Definition given_as (w : World) (arg : option string) (name : string) (v : string) : Prop :=
  (arg = Some v ∧ v ≠ "") ∨
  ((arg = None ∨ arg = Some "") ∧ environ w !! name = Some v).

(** The ways a request can fail before its body is used, with the message
    of the [WallabagApiError] the helper or the decoding step raises:
    a status outside 2xx, a transport failure, or a 2xx body on which
    [json()] raises [JSONDecodeError].  [parse_failure] is the prefix the
    caller puts before the decoder's complaint. *)
Inductive request_failure (parse_failure : string) : Reply → string → Prop :=
| bad_status (resp : Response) :
    is_success resp = false →
    request_failure parse_failure (Responds resp)
      ("API request failed: " +:+ str_int (status_code resp) +:+ " - " +:+ text resp)
| transport_failure (m : string) :
    request_failure parse_failure (Fails (RequestError m)) ("Request failed: " +:+ m)
| undecodable_body (resp : Response) (m : string) :
    is_success resp = true → decoded resp = inl (JSONDecodeError m) →
    request_failure parse_failure (Responds resp) (parse_failure +:+ m).

(** The keys [Article] cannot be built without, and, for every field, the
    test its declared type puts on a supplied value. *)
Definition Article_required : list string :=
  ["id"; "title"; "url"; "content"; "created_at"; "updated_at"].

Definition accepted {A} (v : json → option A) (j : json) : bool :=
  match v j with Some _ => true | None => false end.

Definition Article_validators `{pyd : Pydantic} : list (string * (json → bool)) :=
  [("id", accepted validate_int); ("title", accepted validate_str);
   ("url", accepted validate_str); ("content", accepted (nullable validate_str));
   ("created_at", accepted validate_datetime); ("updated_at", accepted validate_datetime);
   ("reading_time", accepted (nullable validate_int));
   ("domain_name", accepted (nullable validate_str));
   ("preview_picture", accepted (nullable validate_str));
   ("http_status", accepted (nullable validate_str));
   ("is_archived", accepted validate_bool); ("is_starred", accepted validate_bool)].

(** The [_embedded.items] path of a decoded body, as the specification
    speaks of it: the member [items] of the member [_embedded], when both
    are there to be followed. *)
Definition embedded_items_path (body : json) : option json :=
  match body with
  | JObj kw =>
      match kw !! "_embedded" with
      | Some (JObj embedded) => embedded !! "items"
      | _ => None
      end
  | _ => None
  end.

(** * Properties *)

(** ** The request helper *)

Lemma _request_run method url params data headers (s : Session) :
  _request method url params data headers s =
  (request_outcome (network (world s) (mk_request method url params data headers)),
   after_request (mk_request method url params data headers) s).
Proof.
  destruct s as [c w].
  unfold request_outcome, after_request, request_events, mk_request.
  cbv beta iota delta [_request try_finally try_except AsyncClient_new
    client_request aclose raise_for_status bind get modify ret raise
    lift_result on_world log fresh_handle].
  simpl.
  destruct (_client c) as [h|] eqn:Hc; simpl; rewrite ?Hc; simpl;
    (destruct (network w _) as [r|e]; [destruct (is_success r) | destruct e]);
    simpl; rewrite ?Hc; simpl; rewrite <- ?app_assoc; reflexivity.
Qed.

(** The three outcomes of the helper: a 2xx response is returned, any other
    status and any transport failure surface as [WallabagApiError]. *)
Lemma _request_success method url params data headers (s : Session) r :
  network (world s) (mk_request method url params data headers) = Responds r →
  is_success r = true →
  fst (_request method url params data headers s) = Ok r.
Proof. intros Hn Hr. rewrite _request_run. simpl. rewrite Hn. simpl. by rewrite Hr. Qed.

Lemma _request_bad_status method url params data headers (s : Session) r :
  network (world s) (mk_request method url params data headers) = Responds r →
  is_success r = false →
  fst (_request method url params data headers s) =
  Raise (WallabagApiError
           ("API request failed: " +:+ str_int (status_code r) +:+ " - " +:+ text r)).
Proof. intros Hn Hr. rewrite _request_run. simpl. rewrite Hn. simpl. by rewrite Hr. Qed.

Lemma _request_transport_failure method url params data headers (s : Session) m :
  network (world s) (mk_request method url params data headers) = Fails (RequestError m) →
  fst (_request method url params data headers s) =
  Raise (WallabagApiError ("Request failed: " +:+ m)).
Proof. intros Hn. rewrite _request_run. simpl. by rewrite Hn. Qed.

(** C8.  Whatever the far end does with the request (a 2xx answer, another
    status, a transport failure or any other exception), a call of the
    request helper on a client built without a transport opens a handle,
    sends on it and releases it, and a call on a client built with the
    caller's transport only sends on that handle: the helper releases the
    handle it created and never the caller's. *)
Theorem request_releases_exactly_its_own_handle
    method url params data headers (s : Session) :
  let s' := snd (_request method url params data headers s) in
  let rq := mk_request method url params data headers in
  match _client (self s) with
  | None =>
      let h := next_handle (world s) in
      trace (world s') = trace (world s) ++ [Opened h; Sent h rq; Closed h] ∧
      closed (world s') = closed (world s) ++ [h]
  | Some h =>
      trace (world s') = trace (world s) ++ [Sent h rq] ∧
      closed (world s') = closed (world s)
  end.
Proof.
  rewrite _request_run. simpl. unfold closed, request_events. simpl.
  destruct (_client (self s)) as [h|]; simpl; rewrite omap_app; simpl;
    rewrite ?app_nil_r; done.
Qed.

(** ** The read operations *)

Lemma fetch_json_run what url params headers (s : Session) :
  fetch_json what url params headers s =
  (fetch_outcome what (network (world s) (mk_request "GET" url params None headers)),
   after_request (mk_request "GET" url params None headers) s).
Proof.
  unfold fetch_json, fetch_outcome, try_except, bind, lift_result, Response_json, raise.
  rewrite _request_run.
  destruct (request_outcome _) as [r|e]; simpl.
  - destruct (decoded r) as [e|j]; [destruct e|]; reflexivity.
  - destruct e; reflexivity.
Qed.

Section ReadFacts.
Context `{pyd : Pydantic}.

Lemma get_articles_run (req : GetArticlesRequest.t) (s : Session) :
  truthy (access_token (self s)) = true →
  get_articles req s =
  (and_then (fetch_outcome "articles" (network (world s) (entries_request (self s) req)))
            articles_of,
   after_request (entries_request (self s) req) s).
Proof.
  intros Ht. unfold get_articles, bind, get. rewrite Ht. simpl.
  rewrite fetch_json_run. unfold entries_request.
  destruct (fetch_outcome _ _); reflexivity.
Qed.

Lemma search_articles_run (req : SearchArticlesRequest.t) (s : Session) :
  truthy (access_token (self s)) = true →
  search_articles req s =
  (and_then (fetch_outcome "articles" (network (world s) (search_request (self s) req)))
            articles_of,
   after_request (search_request (self s) req) s).
Proof.
  intros Ht. unfold search_articles, bind, get. rewrite Ht. simpl.
  rewrite fetch_json_run. unfold search_request.
  destruct (fetch_outcome _ _); reflexivity.
Qed.

Lemma get_single_article_run (req : GetSingleArticleRequest.t) (s : Session) :
  truthy (access_token (self s)) = true →
  get_single_article req s =
  (and_then (fetch_outcome "article" (network (world s) (entry_request (self s) req)))
            Article.init_from,
   after_request (entry_request (self s) req) s).
Proof.
  intros Ht. unfold get_single_article, bind, get. rewrite Ht. simpl.
  rewrite fetch_json_run. unfold entry_request.
  destruct (fetch_outcome _ _); reflexivity.
Qed.

(** Without a token each read operation stops at its guard. *)
Lemma get_articles_guard (req : GetArticlesRequest.t) (s : Session) :
  truthy (access_token (self s)) = false →
  get_articles req s = (Raise (WallabagAuthError AuthError_no_token), s).
Proof. intros Ht. unfold get_articles, bind, get. by rewrite Ht. Qed.

Lemma search_articles_guard (req : SearchArticlesRequest.t) (s : Session) :
  truthy (access_token (self s)) = false →
  search_articles req s = (Raise (WallabagAuthError AuthError_no_token), s).
Proof. intros Ht. unfold search_articles, bind, get. by rewrite Ht. Qed.

Lemma get_single_article_guard (req : GetSingleArticleRequest.t) (s : Session) :
  truthy (access_token (self s)) = false →
  get_single_article req s = (Raise (WallabagAuthError AuthError_no_token), s).
Proof. intros Ht. unfold get_single_article, bind, get. by rewrite Ht. Qed.

End ReadFacts.

(** ** C5: the token guard *)

(** C5.  On a client that holds no token ([None] as the constructor leaves
    it, or any falsy value), each of the three read operations raises
    [WallabagAuthError] and leaves the whole session as it was: the client
    object is unchanged and nothing was opened, sent or closed on the
    transport. *)
Theorem read_operations_need_a_token `{pyd : Pydantic} (s : Session)
    (one : GetSingleArticleRequest.t) (many : GetArticlesRequest.t)
    (term : SearchArticlesRequest.t) :
  truthy (access_token (self s)) = false →
  get_single_article one s = (Raise (WallabagAuthError AuthError_no_token), s) ∧
  get_articles many s = (Raise (WallabagAuthError AuthError_no_token), s) ∧
  search_articles term s = (Raise (WallabagAuthError AuthError_no_token), s).
Proof.
  intros Ht. split; [|split].
  - by apply get_single_article_guard.
  - by apply get_articles_guard.
  - by apply search_articles_guard.
Qed.

Lemma read_operations_need_a_token_witness :
  let s := {| self := new_client; world := offline |} in
  access_token (self s) = JNull ∧
  sent (world (snd (get_articles GetArticlesRequest.default s))) = [] ∧
  get_single_article {| GetSingleArticleRequest.id := 59 |} s
    = (Raise (WallabagAuthError AuthError_no_token), s) ∧
  get_articles GetArticlesRequest.default s
    = (Raise (WallabagAuthError AuthError_no_token), s) ∧
  search_articles {| SearchArticlesRequest.search_term := "rocq";
                     SearchArticlesRequest.count := None |} s
    = (Raise (WallabagAuthError AuthError_no_token), s).
Proof.
  intros s. split; [reflexivity|]. split; [reflexivity|].
  apply (read_operations_need_a_token s); reflexivity.
Defined.

(** ** C6 and C10: the shape of the response *)

Section ResponseShape.
Context `{pyd : Pydantic}.

Lemma articles_of_no_embedded (m : gmap string json) :
  m !! "_embedded" = None → articles_of (JObj m) = Ok [].
Proof. intros Hm. unfold articles_of. simpl. by rewrite Hm. Qed.

Lemma articles_of_no_items (m e : gmap string json) :
  m !! "_embedded" = Some (JObj e) → e !! "items" = None →
  articles_of (JObj m) = Ok [].
Proof. intros Hm He. unfold articles_of. simpl. rewrite Hm. simpl. by rewrite He. Qed.

Lemma articles_of_not_object (j : json) :
  is_object j = false →
  articles_of j = Raise (AttributeError ("'" +:+ type_name j +:+ "' object has no attribute 'get'")).
Proof. destruct j; simpl; intros; try reflexivity; discriminate. Qed.

(** An [_embedded] member that is not an object fails in the same way, one
    step further down the path. *)
Lemma articles_of_embedded_not_object (m : gmap string json) (j : json) :
  m !! "_embedded" = Some j → is_object j = false →
  articles_of (JObj m) =
  Raise (AttributeError ("'" +:+ type_name j +:+ "' object has no attribute 'get'")).
Proof.
  intros Hm Hj. unfold articles_of. simpl. rewrite Hm. simpl.
  destruct j; simpl; try reflexivity; discriminate.
Qed.

Lemma fetch_outcome_json what (resp : Response) (j : json) :
  is_success resp = true → decoded resp = inr j →
  fetch_outcome what (Responds resp) = Ok j.
Proof. intros Hs Hd. unfold fetch_outcome. simpl. by rewrite Hs, Hd. Qed.

End ResponseShape.

(** C6, as stated, fails: a 2xx body [{"_embedded": null}] has no
    [_embedded.items] path, and both listings raise [AttributeError] on it
    instead of returning the empty list. *)
Lemma null_embedded_raises_AttributeError :
  let body := JObj {[ "_embedded" := JNull ]} in
  let s := {| self := authenticated_client; world := answering body |} in
  let term := {| SearchArticlesRequest.search_term := "rocq";
                 SearchArticlesRequest.count := None |} in
  is_success (ok_response body) = true ∧
  embedded_items_path body = None ∧
  fst (get_articles GetArticlesRequest.default s) =
    Raise (AttributeError "'NoneType' object has no attribute 'get'") ∧
  fst (search_articles term s) =
    Raise (AttributeError "'NoneType' object has no attribute 'get'") ∧
  fst (get_articles GetArticlesRequest.default s) ≠ Ok [] ∧
  fst (search_articles term s) ≠ Ok [].
Proof. repeat split; discriminate. Qed.

(** C6, amended.  On an authenticated client, when the server answers
    [get_articles] or [search_articles] with a 2xx response whose JSON body
    is an object without an [_embedded] key, or whose [_embedded] is an
    object without an [items] key, the operation returns the empty list.
    When [_embedded] is there but is not an object (null, say), the
    operation raises [AttributeError], the failure of [.get] on that
    value. *)
Theorem no_embedded_items_gives_empty_list `{pyd : Pydantic} (s : Session)
    (many : GetArticlesRequest.t) (term : SearchArticlesRequest.t)
    (resp : Response) (body : gmap string json) :
  truthy (access_token (self s)) = true →
  is_success resp = true →
  decoded resp = inr (JObj body) →
  ((body !! "_embedded" = None ∨
    ∃ embedded, body !! "_embedded" = Some (JObj embedded) ∧ embedded !! "items" = None) →
   (network (world s) (entries_request (self s) many) = Responds resp →
    fst (get_articles many s) = Ok []) ∧
   (network (world s) (search_request (self s) term) = Responds resp →
    fst (search_articles term s) = Ok [])) ∧
  (∀ embedded, body !! "_embedded" = Some embedded → is_object embedded = false →
   (network (world s) (entries_request (self s) many) = Responds resp →
    fst (get_articles many s) =
    Raise (AttributeError ("'" +:+ type_name embedded +:+ "' object has no attribute 'get'"))) ∧
   (network (world s) (search_request (self s) term) = Responds resp →
    fst (search_articles term s) =
    Raise (AttributeError ("'" +:+ type_name embedded +:+ "' object has no attribute 'get'")))).
Proof.
  intros Ht Hs Hd.
  rewrite get_articles_run, search_articles_run by done. cbn [fst].
  split.
  - intros Hshape.
    assert (Hempty : articles_of (JObj body) = Ok []).
    { destruct Hshape as [Hm | (e & Hm & He)];
        eauto using articles_of_no_embedded, articles_of_no_items. }
    split; intros Hn; by rewrite Hn, (fetch_outcome_json _ _ _ Hs Hd).
  - intros embedded Hm Hobj.
    pose proof (articles_of_embedded_not_object body embedded Hm Hobj) as Hraise.
    split; intros Hn; by rewrite Hn, (fetch_outcome_json _ _ _ Hs Hd).
Qed.

Lemma no_embedded_items_gives_empty_list_witness :
  let on_body body := {| self := authenticated_client; world := answering (JObj body) |} in
  let term := {| SearchArticlesRequest.search_term := "rocq";
                 SearchArticlesRequest.count := Some 5 |} in
  (fst (get_articles GetArticlesRequest.default
          (on_body {[ "_embedded" := JObj {[ "total" := JInt 0 ]} ]})) = Ok [] ∧
   fst (search_articles term
          (on_body {[ "_embedded" := JObj {[ "total" := JInt 0 ]} ]})) = Ok []) ∧
  (fst (get_articles GetArticlesRequest.default (on_body ∅)) = Ok [] ∧
   fst (search_articles term (on_body ∅)) = Ok []) ∧
  (fst (get_articles GetArticlesRequest.default (on_body {[ "_embedded" := JArr [] ]})) =
     Raise (AttributeError "'list' object has no attribute 'get'") ∧
   fst (search_articles term (on_body {[ "_embedded" := JArr [] ]})) =
     Raise (AttributeError "'list' object has no attribute 'get'")).
Proof.
  intros on_body term.
  assert (Hthm : ∀ body : gmap string json,
            ((body !! "_embedded" = None ∨
              ∃ embedded, body !! "_embedded" = Some (JObj embedded) ∧
                          embedded !! "items" = None) →
             fst (get_articles GetArticlesRequest.default (on_body body)) = Ok [] ∧
             fst (search_articles term (on_body body)) = Ok []) ∧
            (∀ embedded, body !! "_embedded" = Some embedded → is_object embedded = false →
             fst (get_articles GetArticlesRequest.default (on_body body)) =
               Raise (AttributeError
                        ("'" +:+ type_name embedded +:+ "' object has no attribute 'get'")) ∧
             fst (search_articles term (on_body body)) =
               Raise (AttributeError
                        ("'" +:+ type_name embedded +:+ "' object has no attribute 'get'")))).
  { intros body.
    destruct (no_embedded_items_gives_empty_list (on_body body) GetArticlesRequest.default
                term (ok_response (JObj body)) body eq_refl eq_refl eq_refl)
      as [Hempty Hraise].
    split.
    - intros Hshape. destruct (Hempty Hshape) as [Hget Hsearch].
      split; [exact (Hget eq_refl) | exact (Hsearch eq_refl)].
    - intros embedded Hm Hobj. destruct (Hraise embedded Hm Hobj) as [Hget Hsearch].
      split; [exact (Hget eq_refl) | exact (Hsearch eq_refl)]. }
  split; [|split].
  - apply (Hthm {[ "_embedded" := JObj {[ "total" := JInt 0 ]} ]}).
    right. exists {[ "total" := JInt 0 ]}. split; reflexivity.
  - apply (Hthm ∅). by left.
  - apply (proj2 (Hthm {[ "_embedded" := JArr [] ]}) (JArr [])); reflexivity.
Defined.

(** C10.  On an authenticated client, when the server answers
    [get_articles] or [search_articles] with a 2xx response whose body
    decodes to JSON that is not an object (an array, a string, a number, a
    boolean or null), the operation raises [AttributeError] as it is: the
    failure of [.get] on that value, not a [WallabagApiError]. *)
Theorem non_object_body_raises_AttributeError `{pyd : Pydantic} (s : Session)
    (many : GetArticlesRequest.t) (term : SearchArticlesRequest.t)
    (resp : Response) (body : json) :
  truthy (access_token (self s)) = true →
  is_success resp = true →
  decoded resp = inr body →
  is_object body = false →
  (network (world s) (entries_request (self s) many) = Responds resp →
   fst (get_articles many s) =
   Raise (AttributeError ("'" +:+ type_name body +:+ "' object has no attribute 'get'"))) ∧
  (network (world s) (search_request (self s) term) = Responds resp →
   fst (search_articles term s) =
   Raise (AttributeError ("'" +:+ type_name body +:+ "' object has no attribute 'get'"))).
Proof.
  intros Ht Hs Hd Hobj. split; intros Hn.
  - rewrite get_articles_run by done. simpl.
    rewrite Hn, (fetch_outcome_json _ _ _ Hs Hd). simpl.
    by apply articles_of_not_object.
  - rewrite search_articles_run by done. simpl.
    rewrite Hn, (fetch_outcome_json _ _ _ Hs Hd). simpl.
    by apply articles_of_not_object.
Qed.

Lemma non_object_body_raises_AttributeError_witness :
  let s := {| self := authenticated_client; world := answering (JArr []) |} in
  let term := {| SearchArticlesRequest.search_term := "rocq";
                 SearchArticlesRequest.count := None |} in
  fst (get_articles GetArticlesRequest.default s) =
    Raise (AttributeError "'list' object has no attribute 'get'") ∧
  fst (search_articles term s) =
    Raise (AttributeError "'list' object has no attribute 'get'") ∧
  is_WallabagApiError (AttributeError "'list' object has no attribute 'get'") = false.
Proof.
  intros s term.
  pose proof (non_object_body_raises_AttributeError s GetArticlesRequest.default term
                {| status_code := 200; text := ""; decoded := inr (JArr []) |}
                (JArr [])) as Hthm.
  destruct Hthm as [Hget Hsearch]; try reflexivity.
  split; [apply Hget | split; [apply Hsearch |]]; reflexivity.
Defined.

(** ** C2 and C4: the query parameters of [get_articles] *)

Lemma sent_after_request (rq : Request) (s : Session) :
  sent (world (after_request rq s)) = sent (world s) ++ [rq].
Proof.
  unfold sent, after_request, request_events. simpl. rewrite omap_app.
  by destruct (_client (self s)).
Qed.

(** An authenticated [get_articles] issues exactly one request, whatever
    comes back: the one described by [entries_request]. *)
Lemma get_articles_sends `{pyd : Pydantic} (req : GetArticlesRequest.t) (s : Session) :
  truthy (access_token (self s)) = true →
  sent (world (snd (get_articles req s))) = sent (world s) ++ [entries_request (self s) req].
Proof. intros Ht. rewrite get_articles_run by done. apply sent_after_request. Qed.

(** 2023-01-01T00:00:00Z, the timestamp of the repository's own test. *)
Lemma a_timestamp_is_new_year_2023 :
  parse_utc "2023-01-01T00:00:00Z" = Some a_timestamp.
Proof. reflexivity. Qed.

(** Without [since] the parameter is ["0"]. *)
Lemma since_absent (req : GetArticlesRequest.t) :
  GetArticlesRequest.since req = None →
  get_articles_params req !! 2%nat = Some ("since", "0").
Proof. intros Hs. unfold get_articles_params. simpl. by rewrite Hs. Qed.

(** With [since] the parameter is the text of the float that [timestamp()]
    returns. *)
Lemma since_present (req : GetArticlesRequest.t) (d : datetime) :
  GetArticlesRequest.since req = Some d →
  get_articles_params req !! 2%nat = Some ("since", str_timestamp d).
Proof. intros Hs. unfold get_articles_params. simpl. by rewrite Hs. Qed.

Lemma contains_mark_not_digits (mark : ascii) (s : string) :
  digit_of mark = None → contains (String mark "") s = true → all_digits s = false.
Proof.
  intros Hmark. induction s as [|c s IH]; [done|].
  cbn [contains starts_with all_digits].
  destruct (Ascii.eqb mark c) eqn:Hc.
  - apply Ascii.eqb_eq in Hc as <-. by rewrite Hmark.
  - cbn [andb orb]. intros Hs. rewrite (IH Hs). apply andb_false_r.
Qed.

Lemma starts_with_app (needle rest : string) : starts_with needle (needle +:+ rest) = true.
Proof.
  induction needle as [|c n IH]; [by destruct rest|].
  simpl. by rewrite Ascii.eqb_refl, IH.
Qed.

Lemma contains_here (needle rest : string) : contains needle (needle +:+ rest) = true.
Proof.
  pose proof (starts_with_app needle rest) as Hp.
  destruct (needle +:+ rest); cbn [contains]; by rewrite Hp.
Qed.

Lemma contains_later (needle before rest : string) :
  contains needle rest = true → contains needle (before +:+ rest) = true.
Proof.
  intros Hr. induction before as [|c b IH]; [done|].
  simpl. rewrite IH. apply orb_true_r.
Qed.

Lemma marked_text_not_integer (mark : ascii) (body : string) :
  digit_of mark = None → mark ≠ "-"%char →
  contains (String mark "") body = true →
  is_integer_text body = false ∧ is_integer_text ("-" +:+ body) = false.
Proof.
  intros Hmark Hdash Hbody.
  pose proof (contains_mark_not_digits mark body Hmark Hbody) as Hdigits.
  split.
  - destruct body as [|c s]; [done|]. unfold is_integer_text.
    destruct (Ascii.eqb c "-") eqn:Hc; [|done].
    apply Ascii.eqb_eq in Hc as ->.
    cbn [contains starts_with] in Hbody.
    destruct (Ascii.eqb mark "-") eqn:Hm; [by apply Ascii.eqb_eq in Hm|].
    cbn [andb orb] in Hbody.
    rewrite (contains_mark_not_digits mark s Hmark Hbody). apply andb_false_r.
  - change ("-" +:+ body) with (String "-" body).
    cbn [is_integer_text]. rewrite Ascii.eqb_refl, Hdigits. apply andb_false_r.
Qed.

(** The text of a timestamp always has a decimal point or an exponent, so
    it is never an integer numeric string. *)
Lemma str_timestamp_not_integer_text (d : datetime) :
  is_integer_text (str_timestamp d) = false.
Proof.
  unfold str_timestamp.
  set (body := if _ && _ then _ else _).
  assert (Hbody : contains "." body = true ∨ contains "e" body = true).
  { subst body. destruct (_ && _).
    - right. unfold tiny_repr. destruct (Z.ltb _ 10).
      + apply contains_later, (contains_here "e" "-06").
      + apply contains_later, contains_later, (contains_here "e" "-05").
    - left. apply contains_later, (contains_here "." _). }
  assert (Hboth : is_integer_text body = false ∧ is_integer_text ("-" +:+ body) = false).
  { destruct Hbody; eapply marked_text_not_integer; eauto; done. }
  destruct (Z.ltb (timestamp_us d) 0); [apply Hboth | apply Hboth].
Qed.

(** C2.  The request of the repository's test, [since] 2023-01-01T00:00:00Z
    on an authenticated client: the one request that goes out carries
    [since=1672531200.0], the text of a float, where the integer rendering
    of the epoch seconds is [1672531200].  Whatever the timestamp, the text
    that is sent is not an integer numeric string.  A request without
    [since] carries [since=0]. *)
Theorem since_is_sent_as_float_text `{pyd : Pydantic} :
  let req := {| GetArticlesRequest.is_archived := true;
                GetArticlesRequest.since := Some a_timestamp;
                GetArticlesRequest.domain := Some "test.dev";
                GetArticlesRequest.count := Some 5;
                GetArticlesRequest.sort_order := asc;
                GetArticlesRequest.include_content := false |} in
  let s := {| self := authenticated_client; world := answering (articles_body []) |} in
  (req_params <$> sent (world (snd (get_articles req s)))) =
    [Some [("archive", "1"); ("perPage", "5"); ("since", "1672531200.0");
           ("order", "asc"); ("detail", "metadata"); ("domain_name", "test.dev")]] ∧
  str_int_timestamp a_timestamp = "1672531200" ∧
  (∀ (r : GetArticlesRequest.t) (d : datetime),
     GetArticlesRequest.since r = Some d →
     ∃ sent_text, get_articles_params r !! 2%nat = Some ("since", sent_text) ∧
                  is_integer_text sent_text = false) ∧
  get_articles_params GetArticlesRequest.default !! 2%nat = Some ("since", "0").
Proof.
  intros req s. split; [|split; [|split]].
  - rewrite get_articles_sends by reflexivity. reflexivity.
  - reflexivity.
  - intros r d Hd. exists (str_timestamp d).
    split; [by apply since_present | apply str_timestamp_not_integer_text].
  - reflexivity.
Qed.

(** The query of a [get_articles] call with every option at its default:
    the keys come in the order in which the dictionary is built, [since]
    before [order]. *)
Lemma default_query :
  query_string (get_articles_params GetArticlesRequest.default) =
  "archive=0&perPage=100&since=0&order=desc&detail=metadata".
Proof. reflexivity. Qed.

(** C4.  An authenticated [get_articles] hands the transport one request.
    When the request has no [since], its query parameters are exactly
    [archive] (["1"] for archived, else ["0"]), [perPage] (the count in
    decimal when it is given and not zero, else ["100"]), [since] (["0"]),
    [order] (the sort order as it is), [detail] (["full"] with content, else
    ["metadata"]), and [domain_name] exactly when the domain is a non-empty
    string; the default request carries the five pairs of the query
    [archive=0&perPage=100&order=desc&since=0&detail=metadata], written
    with [since] before [order].  With [since] 2023-01-01T00:00:00Z, the
    timestamp of the repository's test, the other parameters are the same
    and [since] is [1672531200.0], the text of a float, where the integer
    rendering of the epoch seconds is [1672531200]. *)
Theorem query_parameters_carry_float_since `{pyd : Pydantic}
    (req : GetArticlesRequest.t) (s : Session) :
  truthy (access_token (self s)) = true →
  let params_with (since_text : string) :=
    [("archive", if GetArticlesRequest.is_archived req then "1" else "0");
     ("perPage", match GetArticlesRequest.count req with
                 | Some n => if Z.eqb n 0 then "100" else str_int n
                 | None => "100"
                 end);
     ("since", since_text);
     ("order", match GetArticlesRequest.sort_order req with
               | asc => "asc" | desc => "desc" end);
     ("detail", if GetArticlesRequest.include_content req then "full" else "metadata")]
    ++ match GetArticlesRequest.domain req with
       | Some (String c d) => [("domain_name", String c d)]
       | Some EmptyString | None => []
       end in
  (GetArticlesRequest.since req = None →
   req_params <$> sent (world (snd (get_articles req s))) =
     (req_params <$> sent (world s)) ++ [Some (params_with "0")]) ∧
  (GetArticlesRequest.since req = Some a_timestamp →
   req_params <$> sent (world (snd (get_articles req s))) =
     (req_params <$> sent (world s)) ++ [Some (params_with "1672531200.0")]) ∧
  str_int_timestamp a_timestamp = "1672531200" ∧
  is_integer_text "1672531200.0" = false ∧
  get_articles_params GetArticlesRequest.default ≡ₚ
    [("archive", "0"); ("perPage", "100"); ("order", "desc"); ("since", "0");
     ("detail", "metadata")] ∧
  query_string (get_articles_params GetArticlesRequest.default) =
    "archive=0&perPage=100&since=0&order=desc&detail=metadata".
Proof.
  intros Ht params_with. subst params_with. cbv beta.
  assert (Hsent : ∀ since_text,
            match GetArticlesRequest.since req with
            | Some d => str_timestamp d
            | None => "0"
            end = since_text →
            req_params <$> sent (world (snd (get_articles req s))) =
            (req_params <$> sent (world s)) ++
            [Some ([("archive", if GetArticlesRequest.is_archived req then "1" else "0");
                    ("perPage", match GetArticlesRequest.count req with
                                | Some n => if Z.eqb n 0 then "100" else str_int n
                                | None => "100"
                                end);
                    ("since", since_text);
                    ("order", match GetArticlesRequest.sort_order req with
                              | asc => "asc" | desc => "desc" end);
                    ("detail", if GetArticlesRequest.include_content req
                               then "full" else "metadata")]
                   ++ match GetArticlesRequest.domain req with
                      | Some (String c d) => [("domain_name", String c d)]
                      | Some EmptyString | None => []
                      end)]).
  { intros since_text <-.
    rewrite get_articles_sends by done. rewrite fmap_app. f_equal.
    unfold entries_request, get_articles_params, per_page, str_sort_order. simpl.
    do 3 f_equal. by destruct (GetArticlesRequest.domain req) as [[|c d]|]. }
  split; [|split; [|split; [|split; [|split]]]].
  - intros Hnone. apply Hsent. by rewrite Hnone.
  - intros Hsome. apply Hsent. by rewrite Hsome.
  - reflexivity.
  - reflexivity.
  - unfold get_articles_params. simpl. do 2 constructor. apply perm_swap.
  - reflexivity.
Qed.

Lemma query_parameters_carry_float_since_witness :
  let s := {| self := authenticated_client; world := answering (articles_body []) |} in
  let since_new_year :=
    {| GetArticlesRequest.is_archived := false;
       GetArticlesRequest.since := Some a_timestamp;
       GetArticlesRequest.domain := None;
       GetArticlesRequest.count := None;
       GetArticlesRequest.sort_order := desc;
       GetArticlesRequest.include_content := false |} in
  truthy (access_token (self s)) = true ∧
  req_params <$> sent (world (snd (get_articles GetArticlesRequest.default s))) =
    [Some [("archive", "0"); ("perPage", "100"); ("since", "0");
           ("order", "desc"); ("detail", "metadata")]] ∧
  req_params <$> sent (world (snd (get_articles since_new_year s))) =
    [Some [("archive", "0"); ("perPage", "100"); ("since", "1672531200.0");
           ("order", "desc"); ("detail", "metadata")]].
Proof.
  intros s since_new_year. split; [reflexivity|].
  destruct (query_parameters_carry_float_since GetArticlesRequest.default s eq_refl)
    as (Hdefault & _).
  destruct (query_parameters_carry_float_since since_new_year s eq_refl)
    as (_ & Hfloat & _).
  split; [exact (Hdefault eq_refl) | exact (Hfloat eq_refl)].
Defined.

(** ** C7 and C9: authentication *)

Lemma authenticate_run (s : Session) (client_id client_secret username password : option string)
    (cid csec user pw : string) :
  or_else client_id (getenv (world s) "WALLABAG_CLIENT_ID") = Some cid →
  or_else client_secret (getenv (world s) "WALLABAG_CLIENT_SECRET") = Some csec →
  or_else username (getenv (world s) "WALLABAG_USERNAME") = Some user →
  or_else password (getenv (world s) "WALLABAG_PASSWORD") = Some pw →
  authenticate client_id client_secret username password s =
  let rq := token_request (self s) cid csec user pw in
  match and_then (token_outcome (network (world s) rq))
                 (λ token_data, py_get token_data "access_token" JNull) with
  | Raise e => (Raise e, after_request rq s)
  | Ok tok =>
      (if truthy tok then Ok true else Raise (WallabagAuthError AuthError_no_access_token),
       on_self (set_access_token tok) (after_request rq s))
  end.
Proof.
  intros H1 H2 H3 H4. unfold authenticate, bind, get.
  rewrite H1, H2, H3, H4.
  unfold try_except, bind, lift_result, Response_json, raise, modify, ret, get.
  rewrite _request_run. fold (token_request (self s) cid csec user pw).
  unfold token_outcome.
  destruct (request_outcome _) as [r|e]; simpl.
  - destruct (decoded r) as [e|j]; simpl; [destruct e; reflexivity|].
    destruct (py_get j "access_token" JNull) as [tok|e]; simpl; [|reflexivity].
    by destruct (truthy tok).
  - destruct e; simpl; try reflexivity.
Qed.

(** A credential that neither the argument nor the environment supplies
    resolves to [None]. *)
Lemma or_else_unset (w : World) (name : string) :
  environ w !! name = None → or_else None (getenv w name) = None.
Proof. intros He. unfold or_else, getenv. by rewrite He. Qed.

Lemma authenticate_unresolved (s : Session) (client_id client_secret username password : option string) :
  or_else client_id (getenv (world s) "WALLABAG_CLIENT_ID") = None ∨
  or_else client_secret (getenv (world s) "WALLABAG_CLIENT_SECRET") = None ∨
  or_else username (getenv (world s) "WALLABAG_USERNAME") = None ∨
  or_else password (getenv (world s) "WALLABAG_PASSWORD") = None →
  authenticate client_id client_secret username password s =
  (Raise (WallabagConfigError ConfigError_credentials), s).
Proof.
  intros Hmissing. unfold authenticate, bind, get.
  destruct (or_else client_id _), (or_else client_secret _),
    (or_else username _), (or_else password _); try reflexivity.
  destruct Hmissing as [?|[?|[?|?]]]; discriminate.
Qed.

(** C7.  When one of the four credentials is given neither as an argument
    nor in the environment, [authenticate] raises [WallabagConfigError]; its
    message names the four parameters, and the session is left as it was,
    so no request went out. *)
Theorem authenticate_missing_credentials (s : Session)
    (client_id client_secret username password : option string) :
  (client_id = None ∧ environ (world s) !! "WALLABAG_CLIENT_ID" = None) ∨
  (client_secret = None ∧ environ (world s) !! "WALLABAG_CLIENT_SECRET" = None) ∨
  (username = None ∧ environ (world s) !! "WALLABAG_USERNAME" = None) ∨
  (password = None ∧ environ (world s) !! "WALLABAG_PASSWORD" = None) →
  ∃ msg,
    authenticate client_id client_secret username password s =
      (Raise (WallabagConfigError msg), s) ∧
    contains "client_id" msg = true ∧ contains "client_secret" msg = true ∧
    contains "username" msg = true ∧ contains "password" msg = true.
Proof.
  intros Hmissing. exists ConfigError_credentials.
  split; [|repeat split; reflexivity].
  apply authenticate_unresolved.
  destruct Hmissing as [[-> He]|[[-> He]|[[-> He]|[-> He]]]];
    [left | right; left | right; right; left | right; right; right];
    by apply or_else_unset.
Qed.

Lemma authenticate_missing_credentials_witness :
  let s := {| self := new_client; world := offline |} in
  ∃ msg,
    authenticate (Some "cid") None None None s = (Raise (WallabagConfigError msg), s) ∧
    sent (world (snd (authenticate (Some "cid") None None None s))) = [] ∧
    contains "client_secret" msg = true.
Proof.
  intros s.
  destruct (authenticate_missing_credentials s (Some "cid") None None None)
    as (msg & Hrun & _ & Hsecret & _).
  - right; left. split; reflexivity.
  - exists msg. split; [exact Hrun|]. split; [|exact Hsecret].
    rewrite Hrun. reflexivity.
Defined.

(** C9, as stated, fails: re-authenticating against a 2xx body whose
    [access_token] is the empty string (falsy) raises [WallabagAuthError]
    and leaves the token equal to that empty string, not to [None]. *)
Lemma falsy_token_is_stored_not_None :
  let s := {| self := authenticated_client; world := answering empty_token_body |} in
  let out := authenticate (Some "id") (Some "secret") (Some "user") (Some "pass") s in
  truthy (access_token (self s)) = true ∧
  fst out = Raise (WallabagAuthError AuthError_no_access_token) ∧
  access_token (self (snd out)) = JStr "" ∧
  access_token (self (snd out)) ≠ JNull.
Proof. repeat split; discriminate. Qed.

(** C9, amended.  On a client that holds a token, when the answer to the
    token request is a 2xx response whose body is a JSON object in which
    [access_token] is missing or falsy, [authenticate] raises
    [WallabagAuthError] and leaves [access_token] equal to what [.get]
    returned: [None] when the field is missing or null, and otherwise the
    falsy value that was received.  The token held before is overwritten, so
    the session is not left unchanged. *)
Theorem failed_reauthentication_overwrites_token (s : Session)
    (client_id client_secret username password : option string)
    (cid csec user pw : string) (resp : Response) (body : gmap string json) :
  or_else client_id (getenv (world s) "WALLABAG_CLIENT_ID") = Some cid →
  or_else client_secret (getenv (world s) "WALLABAG_CLIENT_SECRET") = Some csec →
  or_else username (getenv (world s) "WALLABAG_USERNAME") = Some user →
  or_else password (getenv (world s) "WALLABAG_PASSWORD") = Some pw →
  truthy (access_token (self s)) = true →
  network (world s) (token_request (self s) cid csec user pw) = Responds resp →
  is_success resp = true →
  decoded resp = inr (JObj body) →
  (body !! "access_token" = None ∨
   ∃ tok, body !! "access_token" = Some tok ∧ truthy tok = false) →
  let out := authenticate client_id client_secret username password s in
  fst out = Raise (WallabagAuthError AuthError_no_access_token) ∧
  access_token (self (snd out)) = default JNull (body !! "access_token") ∧
  (body !! "access_token" = None ∨ body !! "access_token" = Some JNull →
   access_token (self (snd out)) = JNull) ∧
  access_token (self (snd out)) ≠ access_token (self s).
Proof.
  intros H1 H2 H3 H4 Hold Hn Hs Hd Hfalsy out. subst out.
  rewrite (authenticate_run s _ _ _ _ cid csec user pw H1 H2 H3 H4).
  cbv zeta. unfold token_outcome. rewrite Hn. simpl. rewrite Hs, Hd. simpl.
  assert (Htok : truthy (default JNull (body !! "access_token")) = false).
  { destruct Hfalsy as [-> | (tok & -> & Ht)]; done. }
  rewrite Htok. simpl. split; [done|]. split; [done|]. split.
  - intros [-> | ->]; done.
  - intros Heq. rewrite <- Heq in Hold. congruence.
Qed.

Lemma failed_reauthentication_overwrites_token_witness :
  let s := {| self := authenticated_client;
              world := answering (JObj {[ "message" := JStr "success but no token" ]}) |} in
  let out := authenticate (Some "id") (Some "secret") (Some "user") (Some "pass") s in
  access_token (self s) = JStr "test_access_token" ∧
  fst out = Raise (WallabagAuthError AuthError_no_access_token) ∧
  access_token (self (snd out)) = JNull.
Proof.
  intros s out. split; [reflexivity|].
  destruct (failed_reauthentication_overwrites_token s
              (Some "id") (Some "secret") (Some "user") (Some "pass")
              "id" "secret" "user" "pass"
              {| status_code := 200; text := "";
                 decoded := inr (JObj {[ "message" := JStr "success but no token" ]}) |}
              {[ "message" := JStr "success but no token" ]})
    as (Hraise & _ & Hnone & _); try reflexivity.
  - left. reflexivity.
  - split; [exact Hraise|]. apply Hnone. left. reflexivity.
Defined.

(** ** C3: the tool adapters *)

Section ToolFacts.
Context `{pyd : Pydantic}.

(** Inside the [try] block nothing escapes: whatever the body does, the
    adapter returns, and a body that raises yields the failure envelope
    with the text of the exception. *)
Lemma guarded_body_returns (body : M Server ToolOutput) (sv : Server) :
  ∃ o, fst (try_except body failure_envelope sv) = Ok o ∧
       (∀ e, fst (body sv) = Raise e → o = Failure (str_exn e)).
Proof.
  unfold try_except, failure_envelope, ret.
  destruct (body sv) as [[o|e] sv']; simpl.
  - exists o. split; [done|]. intros e He. discriminate.
  - exists (Failure (str_exn e)). split; [done|]. by intros e' [= ->].
Qed.

Lemma ensure_client_ready (sv : Server) (c : WallabagClient) :
  client sv = Some c → ensure_client sv = (Ok c, sv).
Proof. intros Hc. unfold ensure_client, bind, get. by rewrite Hc. Qed.

Lemma adapter_ready (body : WallabagClient → M Server ToolOutput) (sv : Server)
    (c : WallabagClient) :
  client sv = Some c →
  (let* c' := ensure_client in try_except (body c') failure_envelope) sv =
  try_except (body c) failure_envelope sv.
Proof. intros Hc. unfold bind at 1. by rewrite (ensure_client_ready sv c Hc). Qed.

(** Once the global client exists, the three adapters always return an
    envelope and never raise. *)
Lemma adapters_return_once_initialized (sv : Server) (c : WallabagClient)
    (id : Z) (is_archived : bool) (domain : option string) (since_days_ago count : option Z)
    (sort_order : SortOrder) (include_content : bool) (search_term : string) :
  client sv = Some c →
  (∃ o, fst (server.get_single_wallabag_article id sv) = Ok o) ∧
  (∃ o, fst (server.get_wallabag_articles is_archived domain since_days_ago count
               sort_order include_content sv) = Ok o) ∧
  (∃ o, fst (server.search_articles search_term count sv) = Ok o).
Proof.
  intros Hc.
  unfold server.get_single_wallabag_article, server.get_wallabag_articles,
    server.search_articles.
  repeat split.
  all: rewrite (adapter_ready _ sv c Hc).
  all: match goal with |- ∃ o, fst (try_except ?b _ _) = _ =>
         destruct (guarded_body_returns b sv) as (o & Ho & _); eauto end.
Qed.

End ToolFacts.

(** C3.  First use with nothing configured, and first use against a server
    that refuses the credentials: the client is built and authenticated
    before the adapter enters its [try] block, so the [WallabagConfigError]
    and the [WallabagAuthError] leave the three adapters as exceptions; no
    envelope is returned. *)
Theorem adapters_raise_when_initialization_fails `{pyd : Pydantic} :
  let unconfigured := {| client := None; process := offline |} in
  let refused := {| client := None; process := rejecting |} in
  let refusal :=
    WallabagAuthError "Authentication failed: API request failed: 401 - invalid_grant" in
  fst (server.get_single_wallabag_article 59 unconfigured)
    = Raise (WallabagConfigError ConfigError_base_url) ∧
  fst (server.get_wallabag_articles false None None None desc false unconfigured)
    = Raise (WallabagConfigError ConfigError_base_url) ∧
  fst (server.search_articles "rocq" None unconfigured)
    = Raise (WallabagConfigError ConfigError_base_url) ∧
  fst (server.get_single_wallabag_article 59 refused) = Raise refusal ∧
  fst (server.get_wallabag_articles false None None None desc false refused)
    = Raise refusal ∧
  fst (server.search_articles "rocq" None refused) = Raise refusal.
Proof. repeat split. Qed.

Lemma adapter_initialization_escapes (body : WallabagClient → M Server ToolOutput)
    (sv : Server) (e : exn) :
  client sv = None →
  fst (initialize_client (process sv)) = Raise e →
  fst ((let* c := ensure_client in try_except (body c) failure_envelope) sv) = Raise e.
Proof.
  intros Hc He. unfold bind at 1. unfold ensure_client, bind at 1, get.
  rewrite Hc. unfold bind at 1, in_process.
  destruct (initialize_client (process sv)) as [[c|e'] w]; simpl in *; congruence.
Qed.

(** ** C1: deserialising an article *)

Section ArticleFacts.
Context `{pyd : Pydantic}.

(** A payload without the [content] key is refused, whatever else it
    holds. *)
Lemma init_requires_content (kw : gmap string json) :
  kw !! "content" = None →
  ∃ msg errors,
    Article.init kw = Raise (ValidationError msg errors) ∧ ("content", Missing) ∈ errors.
Proof.
  intros Hc. unfold Article.init. rewrite Hc. cbv zeta. cbn [required].
  set (r_id := required validate_int _). set (r_title := required validate_str _).
  set (r_url := required validate_str _).
  lazymatch goal with
  | |- context [ValidationError ?m ?errs] => exists m, errs
  end.
  split.
  - destruct r_id, r_title, r_url; reflexivity.
  - rewrite !elem_of_app. right; right; right; left. cbn. apply list_elem_of_here.
Qed.

(** With the [content] key present (a string or null) and the six other
    optional keys left out, construction succeeds: the two flags are
    [False] and the four other optional fields are [None]. *)
Lemma init_defaults (kw : gmap string json) i ti u c ca ua :
  kw !! "id" ≫= validate_int = Some i →
  kw !! "title" ≫= validate_str = Some ti →
  kw !! "url" ≫= validate_str = Some u →
  kw !! "content" ≫= nullable validate_str = Some c →
  kw !! "created_at" ≫= validate_datetime = Some ca →
  kw !! "updated_at" ≫= validate_datetime = Some ua →
  kw !! "reading_time" = None → kw !! "domain_name" = None →
  kw !! "preview_picture" = None → kw !! "http_status" = None →
  kw !! "is_archived" = None → kw !! "is_starred" = None →
  Article.init kw =
  Ok {| Article.id := i; Article.title := ti; Article.url := u; Article.content := c;
        Article.created_at := ca; Article.updated_at := ua;
        Article.reading_time := None; Article.domain_name := None;
        Article.preview_picture := None; Article.http_status := None;
        Article.is_archived := false; Article.is_starred := false |}.
Proof.
  intros Hi Hti Hu Hc Hca Hua Hrt Hdn Hpp Hhs Har Hst. unfold Article.init.
  rewrite Hrt, Hdn, Hpp, Hhs, Har, Hst.
  destruct (kw !! "id") as [j1|]; [|done]. destruct (kw !! "title") as [j2|]; [|done].
  destruct (kw !! "url") as [j3|]; [|done]. destruct (kw !! "content") as [j4|]; [|done].
  destruct (kw !! "created_at") as [j5|]; [|done].
  destruct (kw !! "updated_at") as [j6|]; [|done].
  simpl in *. unfold required. by rewrite Hi, Hti, Hu, Hc, Hca, Hua.
Qed.

End ArticleFacts.

(** The two payloads above, run through the wire-form validators. *)
Example init_entry_with_content :
  Article.init entry_with_content =
  Ok {| Article.id := 1; Article.title := "A"; Article.url := "http://x";
        Article.content := Some "c";
        Article.created_at := {| timestamp_us := 1672567200000000 |};
        Article.updated_at := {| timestamp_us := 1672570800000000 |};
        Article.reading_time := None; Article.domain_name := None;
        Article.preview_picture := None; Article.http_status := None;
        Article.is_archived := false; Article.is_starred := true |}.
Proof. vm_compute. reflexivity. Qed.

Example init_entry_full :
  Article.init entry_full =
  Ok {| Article.id := 1; Article.title := "Article 1";
        Article.url := "http://example.com/1"; Article.content := Some "Content 1";
        Article.created_at := {| timestamp_us := 1672567200000000 |};
        Article.updated_at := {| timestamp_us := 1672570800000000 |};
        Article.reading_time := Some 5; Article.domain_name := Some "example.com";
        Article.preview_picture := Some "http://img.com/1.jpg";
        Article.http_status := Some "200";
        Article.is_archived := false; Article.is_starred := true |}.
Proof. vm_compute. reflexivity. Qed.

(** C1.  The payload [entry_without_content] has the five keys the claim
    requires ([id], [title], [url], [created_at], [updated_at]) and omits
    [content]; building an [Article] from it raises a validation error that
    reports [content] as missing, under every choice of scalar validators.
    An authenticated [get_articles] whose answer lists that entry raises the
    same error instead of returning the article. *)
Theorem article_without_content_is_refused :
  (∀ pyd : Pydantic, ∃ msg errors,
     Article.init entry_without_content = Raise (ValidationError msg errors) ∧
     ("content", Missing) ∈ errors) ∧
  Article.init (pyd := wire_form) entry_without_content =
    Raise (ValidationError "1 validation error for Article" [("content", Missing)]) ∧
  fst (get_articles (pyd := wire_form) GetArticlesRequest.default
         {| self := authenticated_client;
            world := answering
              (JObj {[ "_embedded" :=
                         JObj {[ "items" := JArr [JObj entry_without_content] ]} ]}) |}) =
    Raise (ValidationError "1 validation error for Article" [("content", Missing)]).
Proof.
  split; [|split].
  - intros pyd. by apply init_requires_content.
  - vm_compute. reflexivity.
  - vm_compute. reflexivity.
Qed.

(** ** The repository's tests, replayed on the model *)

Example test_init_no_base_url_raises_config_error :
  fst (WallabagClient_init None None offline) = Raise (WallabagConfigError ConfigError_base_url).
Proof. reflexivity. Qed.

Example test_init_with_base_url :
  fst (WallabagClient_init (Some "http://example.com") None offline) =
  Ok {| base_url := "http://example.com"; access_token := JNull; _client := None |}.
Proof. reflexivity. Qed.

Example test_authenticate_success_with_args :
  let s := {| self := new_client; world := answering (token_body "test_token_args") |} in
  let out := authenticate (Some "cid") (Some "csecret") (Some "user") (Some "pw") s in
  fst out = Ok true ∧
  access_token (self (snd out)) = JStr "test_token_args" ∧
  last_query (world (snd out)) =
    Some "grant_type=password&client_id=cid&client_secret=csecret&username=user&password=pw".
Proof. vm_compute. done. Qed.

Example test_authenticate_api_failure_raises_auth_error :
  let s := {| self := new_client;
              world := replying {| status_code := 500; text := "Internal Server Error";
                                   decoded := inl (JSONDecodeError "Expecting value") |} |} in
  fst (authenticate (Some "id") (Some "secret") (Some "user") (Some "pass") s) =
  Raise (WallabagAuthError
           "Authentication failed: API request failed: 500 - Internal Server Error").
Proof. vm_compute. done. Qed.

Example test_authenticate_json_decode_error_raises_auth_error :
  let s := {| self := new_client;
              world := replying {| status_code := 200; text := "not json";
                                   decoded := inl (JSONDecodeError "Expecting value") |} |} in
  fst (authenticate (Some "id") (Some "secret") (Some "user") (Some "pass") s) =
  Raise (WallabagAuthError "Failed to parse authentication response: Expecting value").
Proof. vm_compute. done. Qed.

Example test_get_articles_success :
  let s := {| self := authenticated_client;
              world := answering (articles_body [entry_full; entry_second]) |} in
  let out := get_articles GetArticlesRequest.default s in
  (Article.id <$> default [] (match fst out with Ok l => Some l | Raise _ => None end)) = [1; 2] ∧
  (Article.is_starred <$> default [] (match fst out with Ok l => Some l | Raise _ => None end))
    = [true; false] ∧
  (Article.preview_picture <$> default [] (match fst out with Ok l => Some l | Raise _ => None end))
    = [Some "http://img.com/1.jpg"; None] ∧
  last_query (world (snd out)) =
    Some "archive=0&perPage=100&since=0&order=desc&detail=metadata" ∧
  (req_headers <$> last (sent (world (snd out)))) =
    Some (Some [Authorization_Bearer (JStr "test_access_token")]).
Proof. vm_compute. done. Qed.

(** The value the repository's test expects for [since] is an integer
    numeric string; the value the client sends is not. *)
Example test_get_articles_with_custom_request_params_since :
  is_integer_text (str_int_timestamp a_timestamp) = true ∧
  is_integer_text (str_timestamp a_timestamp) = false ∧
  contains ("since=" +:+ str_int_timestamp a_timestamp)
           ("since=" +:+ str_timestamp a_timestamp) = true.
Proof. vm_compute. done. Qed.

(** * Further properties of the client and the adapters *)

(** ** Construction *)

Lemma str_truthy_nonempty (u : string) : u ≠ "" → str_truthy u = true.
Proof. by destruct u. Qed.

(** X1.  The constructor takes the base URL from its argument when that is
    a non-empty string, whatever the environment holds; without one ([None]
    or the empty string) it takes a non-empty [WALLABAG_BASE_URL] from the
    environment, and when that is unset or empty too it raises
    [WallabagConfigError].  A client that is built holds no token and the
    transport it was given; the world is untouched in every case. *)
Theorem constructor_resolves_base_url (arg : option string) (client : option handle)
    (w : World) :
  (∀ u, arg = Some u → u ≠ "" →
     WallabagClient_init arg client w =
     (Ok {| base_url := u; access_token := JNull; _client := client |}, w)) ∧
  (arg = None ∨ arg = Some "" →
   ∀ v, environ w !! "WALLABAG_BASE_URL" = Some v → v ≠ "" →
     WallabagClient_init arg client w =
     (Ok {| base_url := v; access_token := JNull; _client := client |}, w)) ∧
  (arg = None ∨ arg = Some "" →
   environ w !! "WALLABAG_BASE_URL" = None ∨ environ w !! "WALLABAG_BASE_URL" = Some "" →
     WallabagClient_init arg client w =
     (Raise (WallabagConfigError ConfigError_base_url), w)).
Proof.
  unfold WallabagClient_init, bind, get, getenv, or_else, ret, raise.
  split; [|split].
  - intros u -> Hu. by rewrite !(str_truthy_nonempty u Hu).
  - intros Harg v Hv Hne.
    destruct v as [|c v]; [done|].
    destruct Harg as [-> | ->]; simpl; by rewrite Hv.
  - intros Harg Henv.
    destruct Harg as [-> | ->], Henv as [Henv | Henv]; simpl; by rewrite Henv.
Qed.

Lemma constructor_resolves_base_url_witness :
  WallabagClient_init (Some "http://example.com") (Some 7%nat) (wallabag (ok_response JNull) (ok_response JNull)) =
    (Ok {| base_url := "http://example.com"; access_token := JNull; _client := Some 7%nat |},
     wallabag (ok_response JNull) (ok_response JNull)) ∧
  fst (WallabagClient_init (Some "") None (wallabag (ok_response JNull) (ok_response JNull))) =
    Ok {| base_url := "http://test-wallabag.com"; access_token := JNull; _client := None |} ∧
  fst (WallabagClient_init (Some "") None offline) =
    Raise (WallabagConfigError ConfigError_base_url).
Proof.
  split; [|split].
  - destruct (constructor_resolves_base_url (Some "http://example.com") (Some 7%nat)
                (wallabag (ok_response JNull) (ok_response JNull))) as (Harg & _ & _).
    by apply Harg.
  - destruct (constructor_resolves_base_url (Some "") None
                (wallabag (ok_response JNull) (ok_response JNull))) as (_ & Henv & _).
    rewrite (Henv (or_intror eq_refl) "http://test-wallabag.com"); done.
  - destruct (constructor_resolves_base_url (Some "") None offline) as (_ & _ & Hnone).
    rewrite Hnone; [done | by right | by left].
Defined.

(** ** The request helper *)

(** X2.  The helper hands back a response exactly when the far end gave
    that response and its status is 2xx.  A response with any other status
    comes out as [WallabagApiError] with [API request failed: ], the status
    code and the body; a request error of the transport comes out as
    [WallabagApiError] with [Request failed: ] and the transport's message;
    a status error raised by the transport itself comes out like a bad
    status.  So the transport's own two exceptions never reach the caller;
    any other exception passes through unchanged. *)
Theorem request_returns_only_success_and_wraps_transport_errors
    method url params data headers (s : Session) :
  let reply := network (world s) (mk_request method url params data headers) in
  let out := fst (_request method url params data headers s) in
  (∀ r, out = Ok r → reply = Responds r ∧ 200 ≤ status_code r ≤ 299) ∧
  (∀ code body, out ≠ Raise (HTTPStatusError code body)) ∧
  (∀ m, out ≠ Raise (RequestError m)) ∧
  (∀ r, reply = Responds r → 200 ≤ status_code r ≤ 299 → out = Ok r) ∧
  (∀ r, reply = Responds r → ¬ (200 ≤ status_code r ≤ 299) →
        out = Raise (WallabagApiError
                       ("API request failed: " +:+ str_int (status_code r) +:+ " - " +:+ text r))) ∧
  (∀ m, reply = Fails (RequestError m) →
        out = Raise (WallabagApiError ("Request failed: " +:+ m))) ∧
  (∀ code body, reply = Fails (HTTPStatusError code body) →
        out = Raise (WallabagApiError
                       ("API request failed: " +:+ str_int code +:+ " - " +:+ body))) ∧
  (∀ e, reply = Fails e →
        (∀ m, e ≠ RequestError m) → (∀ code body, e ≠ HTTPStatusError code body) →
        out = Raise e).
Proof.
  intros reply out. subst reply out.
  rewrite _request_run. cbn [fst]. unfold request_outcome.
  destruct (network (world s) _) as [r|e].
  - assert (Hiff : is_success r = true ↔ 200 ≤ status_code r ≤ 299)
      by (unfold is_success; lia).
    destruct (is_success r) eqn:Hr.
    + repeat split; try discriminate; try (intros; congruence).
      * injection H as <-. by apply Hiff.
      * injection H as <-. by apply Hiff.
      * intros r' [= <-] Hno. destruct Hno. by apply Hiff.
    + repeat split; try discriminate.
      * intros r' [= <-] Hyes. apply Hiff in Hyes. discriminate.
      * by intros r' [= <-] _.
  - repeat split; try discriminate; try (destruct e; discriminate).
    + by intros m [= ->].
    + by intros code body [= ->].
    + intros e' [= <-] Hreq Hstat. destruct e; try reflexivity.
      * by destruct (Hstat status_code0 text0).
      * by destruct (Hreq msg).
Qed.

Lemma request_returns_only_success_and_wraps_transport_errors_witness :
  let rq := mk_request "GET" "http://test-wallabag.com/api/entries" None None None in
  let missing := {| status_code := 404; text := "Not Found";
                    decoded := inl (JSONDecodeError "Expecting value") |} in
  (network (answering (JArr [])) rq = Responds (ok_response (JArr [])) ∧
   200 ≤ status_code (ok_response (JArr [])) ≤ 299) ∧
  fst (_request "GET" "http://test-wallabag.com/api/entries" None None None
         {| self := authenticated_client; world := answering (JArr []) |}) =
    Ok (ok_response (JArr [])) ∧
  fst (_request "GET" "http://test-wallabag.com/api/entries" None None None
         {| self := authenticated_client; world := replying missing |}) =
    Raise (WallabagApiError "API request failed: 404 - Not Found") ∧
  fst (_request "GET" "http://test-wallabag.com/api/entries" None None None
         {| self := authenticated_client; world := offline |}) =
    Raise (WallabagApiError "Request failed: All connection attempts failed").
Proof.
  intros rq missing.
  pose proof (request_returns_only_success_and_wraps_transport_errors
                "GET" "http://test-wallabag.com/api/entries" None None None
                {| self := authenticated_client; world := answering (JArr []) |})
    as (Honly & _ & _ & Hok & _).
  pose proof (request_returns_only_success_and_wraps_transport_errors
                "GET" "http://test-wallabag.com/api/entries" None None None
                {| self := authenticated_client; world := replying missing |})
    as (_ & _ & _ & _ & Hbad & _).
  pose proof (request_returns_only_success_and_wraps_transport_errors
                "GET" "http://test-wallabag.com/api/entries" None None None
                {| self := authenticated_client; world := offline |})
    as (_ & _ & _ & _ & _ & Hoff & _).
  split; [exact (Honly _ eq_refl)|].
  split; [apply (Hok (ok_response (JArr [])) eq_refl); simpl; lia|].
  split; [apply (Hbad missing eq_refl); simpl; lia|].
  apply (Hoff "All connection attempts failed" eq_refl).
Defined.

(** ** Authentication *)

Lemma or_else_given (w : World) (arg : option string) (name v : string) :
  given_as w arg name v → or_else arg (getenv w name) = Some v.
Proof.
  unfold given_as, or_else, getenv.
  intros [[-> Hv] | [[-> | ->] Henv]]; [by destruct v | done | done].
Qed.

(** Whatever comes back, a call with resolved credentials leaves the world
    as one request leaves it. *)
Lemma authenticate_world (s : Session) (client_id client_secret username password : option string)
    (cid csec user pw : string) :
  or_else client_id (getenv (world s) "WALLABAG_CLIENT_ID") = Some cid →
  or_else client_secret (getenv (world s) "WALLABAG_CLIENT_SECRET") = Some csec →
  or_else username (getenv (world s) "WALLABAG_USERNAME") = Some user →
  or_else password (getenv (world s) "WALLABAG_PASSWORD") = Some pw →
  world (snd (authenticate client_id client_secret username password s)) =
  world (after_request (token_request (self s) cid csec user pw) s).
Proof.
  intros H1 H2 H3 H4.
  rewrite (authenticate_run s _ _ _ _ cid csec user pw H1 H2 H3 H4). cbv zeta.
  destruct (and_then _ _); reflexivity.
Qed.

(** X3.  With the four credentials resolved, when the server answers the
    token request with a 2xx JSON object whose [access_token] is truthy,
    [authenticate] returns [True] and stores that token, whatever token was
    held before; the base URL and the transport setting are untouched, and
    exactly one request went out: a [GET] of [{base_url}/oauth/v2/token]
    with the grant type and the four credentials as query parameters, no
    form data and no headers. *)
Theorem authenticate_stores_the_token (s : Session)
    (client_id client_secret username password : option string)
    (cid csec user pw : string) (resp : Response) (body : gmap string json) (tok : json) :
  or_else client_id (getenv (world s) "WALLABAG_CLIENT_ID") = Some cid →
  or_else client_secret (getenv (world s) "WALLABAG_CLIENT_SECRET") = Some csec →
  or_else username (getenv (world s) "WALLABAG_USERNAME") = Some user →
  or_else password (getenv (world s) "WALLABAG_PASSWORD") = Some pw →
  network (world s)
    {| req_method := "GET"; req_url := base_url (self s) +:+ "/oauth/v2/token";
       req_params := Some [("grant_type", "password"); ("client_id", cid);
                           ("client_secret", csec); ("username", user); ("password", pw)];
       req_data := None; req_headers := None |} = Responds resp →
  is_success resp = true →
  decoded resp = inr (JObj body) →
  body !! "access_token" = Some tok →
  truthy tok = true →
  let out := authenticate client_id client_secret username password s in
  fst out = Ok true ∧
  self (snd out) =
    {| base_url := base_url (self s); access_token := tok; _client := _client (self s) |} ∧
  sent (world (snd out)) =
    sent (world s) ++
    [{| req_method := "GET"; req_url := base_url (self s) +:+ "/oauth/v2/token";
        req_params := Some [("grant_type", "password"); ("client_id", cid);
                            ("client_secret", csec); ("username", user); ("password", pw)];
        req_data := None; req_headers := None |}].
Proof.
  intros H1 H2 H3 H4 Hn Hs Hd Hb Ht out. subst out.
  rewrite (authenticate_run s _ _ _ _ cid csec user pw H1 H2 H3 H4). cbv zeta.
  unfold token_outcome, token_request, mk_request. rewrite Hn. simpl.
  rewrite Hs, Hd. simpl. rewrite Hb. simpl. rewrite Ht.
  split; [done|]. split; [done|].
  apply (sent_after_request _ s).
Qed.

Lemma authenticate_stores_the_token_witness :
  let s := {| self := authenticated_client;
              world := wallabag (ok_response (token_body "fresh")) (ok_response JNull) |} in
  let out := authenticate None None None None s in
  fst out = Ok true ∧
  access_token (self (snd out)) = JStr "fresh" ∧
  length (sent (world (snd out))) = 1%nat.
Proof.
  intros s out.
  destruct (authenticate_stores_the_token s None None None None "cid" "csecret" "user" "pw"
              (ok_response (token_body "fresh"))
              (list_to_map [("access_token", JStr "fresh"); ("expires_in", JInt 3600);
                            ("token_type", JStr "Bearer")])
              (JStr "fresh"))
    as (Hret & Hself & Hsent); try reflexivity.
  subst out. split; [exact Hret|]. split; [by rewrite Hself | by rewrite Hsent].
Defined.

(** X4.  With the four credentials resolved, when the token request meets a
    status outside 2xx or a transport failure, [authenticate] raises
    [WallabagAuthError] with the API error's message behind
    [Authentication failed: ]; when the answer is 2xx and [json()] raises
    [JSONDecodeError], it raises [WallabagAuthError] with the decoder's
    complaint behind [Failed to parse authentication response: ]; any other
    exception that [json()] raises (a [UnicodeDecodeError] on a body that is
    not text) is caught by neither [except] clause and leaves
    [authenticate] as it is.  In all these cases the client object, and with
    it a token obtained earlier, is left as it was. *)
Theorem authenticate_failure_keeps_the_token (s : Session)
    (client_id client_secret username password : option string)
    (cid csec user pw : string) :
  or_else client_id (getenv (world s) "WALLABAG_CLIENT_ID") = Some cid →
  or_else client_secret (getenv (world s) "WALLABAG_CLIENT_SECRET") = Some csec →
  or_else username (getenv (world s) "WALLABAG_USERNAME") = Some user →
  or_else password (getenv (world s) "WALLABAG_PASSWORD") = Some pw →
  let out := authenticate client_id client_secret username password s in
  let reply := network (world s) (token_request (self s) cid csec user pw) in
  (∀ resp, reply = Responds resp → is_success resp = false →
     fst out = Raise (WallabagAuthError
                        ("Authentication failed: API request failed: " +:+
                         str_int (status_code resp) +:+ " - " +:+ text resp)) ∧
     self (snd out) = self s) ∧
  (∀ m, reply = Fails (RequestError m) →
     fst out = Raise (WallabagAuthError ("Authentication failed: Request failed: " +:+ m)) ∧
     self (snd out) = self s) ∧
  (∀ resp m, reply = Responds resp → is_success resp = true →
     decoded resp = inl (JSONDecodeError m) →
     fst out = Raise (WallabagAuthError ("Failed to parse authentication response: " +:+ m)) ∧
     self (snd out) = self s) ∧
  (∀ resp e, reply = Responds resp → is_success resp = true →
     decoded resp = inl e →
     (∀ m, e ≠ JSONDecodeError m) → (∀ m, e ≠ WallabagApiError m) →
     fst out = Raise e ∧ self (snd out) = self s).
Proof.
  intros H1 H2 H3 H4 out reply. subst out reply.
  rewrite (authenticate_run s _ _ _ _ cid csec user pw H1 H2 H3 H4). cbv zeta.
  unfold token_outcome.
  split; [|split; [|split]].
  - intros resp -> Hs. simpl. by rewrite Hs.
  - intros m ->. done.
  - intros resp m -> Hs Hd. simpl. by rewrite Hs, Hd.
  - intros resp e -> Hs Hd Hjson Hapi. simpl. rewrite Hs, Hd.
    destruct e; try done; [by destruct (Hapi msg) | by destruct (Hjson msg)].
Qed.

Lemma authenticate_failure_keeps_the_token_witness :
  let s := {| self := authenticated_client;
              world := replying {| status_code := 500; text := "Internal Server Error";
                                   decoded := inl (JSONDecodeError "Expecting value") |} |} in
  let s' := {| self := authenticated_client;
               world := replying {| status_code := 200; text := "";
                                    decoded := inl (UnicodeDecodeError "invalid start byte") |} |} in
  let out := authenticate (Some "id") (Some "secret") (Some "user") (Some "pass") s in
  let out' := authenticate (Some "id") (Some "secret") (Some "user") (Some "pass") s' in
  fst out = Raise (WallabagAuthError
                     "Authentication failed: API request failed: 500 - Internal Server Error") ∧
  access_token (self (snd out)) = JStr "test_access_token" ∧
  fst out' = Raise (UnicodeDecodeError "invalid start byte") ∧
  access_token (self (snd out')) = JStr "test_access_token".
Proof.
  intros s s' out out'.
  destruct (authenticate_failure_keeps_the_token s
              (Some "id") (Some "secret") (Some "user") (Some "pass")
              "id" "secret" "user" "pass" eq_refl eq_refl eq_refl eq_refl)
    as (Hstatus & _ & _ & _).
  destruct (authenticate_failure_keeps_the_token s'
              (Some "id") (Some "secret") (Some "user") (Some "pass")
              "id" "secret" "user" "pass" eq_refl eq_refl eq_refl eq_refl)
    as (_ & _ & _ & Hraw).
  destruct (Hstatus {| status_code := 500; text := "Internal Server Error";
                       decoded := inl (JSONDecodeError "Expecting value") |}
              eq_refl eq_refl) as (Hraise & Hself).
  destruct (Hraw {| status_code := 200; text := "";
                    decoded := inl (UnicodeDecodeError "invalid start byte") |}
              (UnicodeDecodeError "invalid start byte") eq_refl eq_refl eq_refl)
    as (Hraise' & Hself'); [discriminate | discriminate |].
  subst out out'. split; [exact Hraise|]. split; [by rewrite Hself|].
  split; [exact Hraise' | by rewrite Hself'].
Defined.

(** X5.  Each credential is taken from the argument when that is a
    non-empty string, whatever the environment holds; when the argument is
    [None] or empty it is taken from the environment variable as it is,
    even if that value is the empty string.  The token request then goes
    out with exactly these four values, whatever the server answers. *)
Theorem authenticate_resolves_credentials (s : Session)
    (client_id client_secret username password : option string)
    (cid csec user pw : string) :
  given_as (world s) client_id "WALLABAG_CLIENT_ID" cid →
  given_as (world s) client_secret "WALLABAG_CLIENT_SECRET" csec →
  given_as (world s) username "WALLABAG_USERNAME" user →
  given_as (world s) password "WALLABAG_PASSWORD" pw →
  req_params <$> sent (world (snd (authenticate client_id client_secret username password s))) =
  (req_params <$> sent (world s)) ++
  [Some [("grant_type", "password"); ("client_id", cid); ("client_secret", csec);
         ("username", user); ("password", pw)]].
Proof.
  intros H1%or_else_given H2%or_else_given H3%or_else_given H4%or_else_given.
  rewrite (authenticate_world s _ _ _ _ cid csec user pw H1 H2 H3 H4).
  rewrite sent_after_request, fmap_app. reflexivity.
Qed.

Lemma authenticate_resolves_credentials_witness :
  let w := {| environ := list_to_map [("WALLABAG_CLIENT_ID", "env_id");
                                     ("WALLABAG_CLIENT_SECRET", "");
                                     ("WALLABAG_USERNAME", "env_user");
                                     ("WALLABAG_PASSWORD", "env_pw")];
              network := λ _, Fails (RequestError "All connection attempts failed");
              now := epoch; next_handle := 0%nat; trace := [] |} in
  let s := {| self := new_client; world := w |} in
  req_params <$> sent (world (snd (authenticate (Some "arg_id") None (Some "") None s))) =
  [Some [("grant_type", "password"); ("client_id", "arg_id"); ("client_secret", "");
         ("username", "env_user"); ("password", "env_pw")]].
Proof.
  intros w s.
  apply (authenticate_resolves_credentials s (Some "arg_id") None (Some "") None
           "arg_id" "" "env_user" "env_pw").
  - left. done.
  - right. split; [by left | reflexivity].
  - right. split; [by right | reflexivity].
  - right. split; [by left | reflexivity].
Defined.

(** X6.  With the four credentials resolved, when the server answers the
    token request with a 2xx body that is JSON but not an object,
    [authenticate] raises the [AttributeError] of [.get] on that value,
    neither [WallabagAuthError] nor [WallabagApiError], and the client
    object is left as it was. *)
Theorem authenticate_non_object_body (s : Session)
    (client_id client_secret username password : option string)
    (cid csec user pw : string) (resp : Response) (body : json) :
  or_else client_id (getenv (world s) "WALLABAG_CLIENT_ID") = Some cid →
  or_else client_secret (getenv (world s) "WALLABAG_CLIENT_SECRET") = Some csec →
  or_else username (getenv (world s) "WALLABAG_USERNAME") = Some user →
  or_else password (getenv (world s) "WALLABAG_PASSWORD") = Some pw →
  network (world s) (token_request (self s) cid csec user pw) = Responds resp →
  is_success resp = true →
  decoded resp = inr body →
  is_object body = false →
  let out := authenticate client_id client_secret username password s in
  fst out = Raise (AttributeError ("'" +:+ type_name body +:+ "' object has no attribute 'get'")) ∧
  self (snd out) = self s.
Proof.
  intros H1 H2 H3 H4 Hn Hs Hd Hobj out. subst out.
  rewrite (authenticate_run s _ _ _ _ cid csec user pw H1 H2 H3 H4). cbv zeta.
  unfold token_outcome. rewrite Hn. simpl. rewrite Hs, Hd. simpl.
  destruct body; try discriminate; done.
Qed.

Lemma authenticate_non_object_body_witness :
  let s := {| self := authenticated_client; world := answering (JStr "ok") |} in
  let out := authenticate (Some "id") (Some "secret") (Some "user") (Some "pass") s in
  fst out = Raise (AttributeError "'str' object has no attribute 'get'") ∧
  access_token (self (snd out)) = JStr "test_access_token".
Proof.
  intros s out.
  destruct (authenticate_non_object_body s
              (Some "id") (Some "secret") (Some "user") (Some "pass")
              "id" "secret" "user" "pass" (ok_response (JStr "ok")) (JStr "ok"))
    as (Hraise & Hself); try reflexivity.
  subst out. split; [exact Hraise | by rewrite Hself].
Defined.

(** ** The read operations *)

Lemma authenticate_world_cases (s : Session)
    (client_id client_secret username password : option string) :
  world (snd (authenticate client_id client_secret username password s)) = world s ∨
  ∃ rq, world (snd (authenticate client_id client_secret username password s)) =
        world (after_request rq s).
Proof.
  destruct (or_else client_id (getenv (world s) "WALLABAG_CLIENT_ID")) as [cid|] eqn:H1;
    [|left; rewrite authenticate_unresolved; [done | by left]].
  destruct (or_else client_secret (getenv (world s) "WALLABAG_CLIENT_SECRET")) as [csec|] eqn:H2;
    [|left; rewrite authenticate_unresolved; [done | by right; left]].
  destruct (or_else username (getenv (world s) "WALLABAG_USERNAME")) as [user|] eqn:H3;
    [|left; rewrite authenticate_unresolved; [done | by right; right; left]].
  destruct (or_else password (getenv (world s) "WALLABAG_PASSWORD")) as [pw|] eqn:H4;
    [|left; rewrite authenticate_unresolved; [done | by right; right; right]].
  right. eexists. by apply authenticate_world.
Qed.

Section ReadMoreFacts.
Context `{pyd : Pydantic}.

(** Each read operation leaves the client object alone, and leaves the
    world either untouched or as one request leaves it. *)
Lemma get_articles_effect (req : GetArticlesRequest.t) (s : Session) :
  self (snd (get_articles req s)) = self s ∧
  (world (snd (get_articles req s)) = world s ∨
   ∃ rq, world (snd (get_articles req s)) = world (after_request rq s)).
Proof.
  destruct (truthy (access_token (self s))) eqn:Ht.
  - rewrite get_articles_run by done. split; [done | right; by eexists].
  - rewrite get_articles_guard by done. split; [done | by left].
Qed.

Lemma search_articles_effect (req : SearchArticlesRequest.t) (s : Session) :
  self (snd (search_articles req s)) = self s ∧
  (world (snd (search_articles req s)) = world s ∨
   ∃ rq, world (snd (search_articles req s)) = world (after_request rq s)).
Proof.
  destruct (truthy (access_token (self s))) eqn:Ht.
  - rewrite search_articles_run by done. split; [done | right; by eexists].
  - rewrite search_articles_guard by done. split; [done | by left].
Qed.

Lemma get_single_article_effect (req : GetSingleArticleRequest.t) (s : Session) :
  self (snd (get_single_article req s)) = self s ∧
  (world (snd (get_single_article req s)) = world s ∨
   ∃ rq, world (snd (get_single_article req s)) = world (after_request rq s)).
Proof.
  destruct (truthy (access_token (self s))) eqn:Ht.
  - rewrite get_single_article_run by done. split; [done | right; by eexists].
  - rewrite get_single_article_guard by done. split; [done | by left].
Qed.

Lemma one_request_at_most (s : Session) (w' : World) :
  w' = world s ∨ (∃ rq, w' = world (after_request rq s)) →
  sent w' = sent (world s) ∨ ∃ rq, sent w' = sent (world s) ++ [rq].
Proof.
  intros [-> | [rq ->]]; [by left | right]. exists rq. apply sent_after_request.
Qed.

(** X7.  The three read operations never change the client object (the
    token, the base URL and the transport setting stay as they were) and
    issue at most one request per call, whatever the server does: nothing is
    retried. *)
Theorem read_operations_keep_the_client_and_never_retry (s : Session)
    (one : GetSingleArticleRequest.t) (many : GetArticlesRequest.t)
    (term : SearchArticlesRequest.t) :
  (self (snd (get_single_article one s)) = self s ∧
   (sent (world (snd (get_single_article one s))) = sent (world s) ∨
    ∃ rq, sent (world (snd (get_single_article one s))) = sent (world s) ++ [rq])) ∧
  (self (snd (get_articles many s)) = self s ∧
   (sent (world (snd (get_articles many s))) = sent (world s) ∨
    ∃ rq, sent (world (snd (get_articles many s))) = sent (world s) ++ [rq])) ∧
  (self (snd (search_articles term s)) = self s ∧
   (sent (world (snd (search_articles term s))) = sent (world s) ∨
    ∃ rq, sent (world (snd (search_articles term s))) = sent (world s) ++ [rq])).
Proof.
  destruct (get_single_article_effect one s) as [H1 W1].
  destruct (get_articles_effect many s) as [H2 W2].
  destruct (search_articles_effect term s) as [H3 W3].
  repeat split; auto using one_request_at_most.
Qed.

Lemma fetch_outcome_other (what : string) (reply : Reply) (resp : Response) (e : exn) :
  reply = Responds resp → is_success resp = true → decoded resp = inl e →
  (∀ m, e ≠ JSONDecodeError m) →
  fetch_outcome what reply = Raise e.
Proof.
  intros -> Hs Hd Hne. unfold fetch_outcome. simpl. rewrite Hs, Hd.
  destruct e; try reflexivity. by destruct (Hne msg).
Qed.

Lemma fetch_outcome_failure_articles (reply : Reply) (msg : string) :
  request_failure "Failed to parse articles response: " reply msg →
  fetch_outcome "articles" reply = Raise (WallabagApiError msg).
Proof.
  unfold fetch_outcome.
  intros [resp Hs | m | resp m Hs Hd]; simpl; rewrite ?Hs, ?Hd; reflexivity.
Qed.

Lemma fetch_outcome_failure_article (reply : Reply) (msg : string) :
  request_failure "Failed to parse article response: " reply msg →
  fetch_outcome "article" reply = Raise (WallabagApiError msg).
Proof.
  unfold fetch_outcome.
  intros [resp Hs | m | resp m Hs Hd]; simpl; rewrite ?Hs, ?Hd; reflexivity.
Qed.

(** X8.  On an authenticated client, when the request of a read operation
    meets a status outside 2xx, a transport failure or a 2xx body that the
    decoder refuses with [JSONDecodeError], the operation raises
    [WallabagApiError] (never [WallabagAuthError]) with the status code and
    body, the transport's message, or the decoder's complaint behind
    [Failed to parse article(s) response: ].  Only [JSONDecodeError] is
    caught: any other exception raised while decoding a 2xx body (a
    [UnicodeDecodeError] for a body that is not UTF-8, say) leaves the
    operation as it is. *)
Theorem read_failures_are_api_errors (s : Session)
    (one : GetSingleArticleRequest.t) (many : GetArticlesRequest.t)
    (term : SearchArticlesRequest.t) (msg : string) :
  truthy (access_token (self s)) = true →
  (request_failure "Failed to parse article response: "
     (network (world s) (entry_request (self s) one)) msg →
   fst (get_single_article one s) = Raise (WallabagApiError msg)) ∧
  (request_failure "Failed to parse articles response: "
     (network (world s) (entries_request (self s) many)) msg →
   fst (get_articles many s) = Raise (WallabagApiError msg)) ∧
  (request_failure "Failed to parse articles response: "
     (network (world s) (search_request (self s) term)) msg →
   fst (search_articles term s) = Raise (WallabagApiError msg)) ∧
  (∀ resp e, is_success resp = true → decoded resp = inl e →
     (∀ m, e ≠ JSONDecodeError m) →
     (network (world s) (entry_request (self s) one) = Responds resp →
      fst (get_single_article one s) = Raise e) ∧
     (network (world s) (entries_request (self s) many) = Responds resp →
      fst (get_articles many s) = Raise e) ∧
     (network (world s) (search_request (self s) term) = Responds resp →
      fst (search_articles term s) = Raise e)).
Proof.
  intros Ht. split; [|split; [|split]].
  - intros Hfail. rewrite get_single_article_run by done. simpl.
    by rewrite (fetch_outcome_failure_article _ _ Hfail).
  - intros Hfail. rewrite get_articles_run by done. simpl.
    by rewrite (fetch_outcome_failure_articles _ _ Hfail).
  - intros Hfail. rewrite search_articles_run by done. simpl.
    by rewrite (fetch_outcome_failure_articles _ _ Hfail).
  - intros resp e Hs Hd Hne.
    rewrite get_single_article_run, get_articles_run, search_articles_run by done.
    cbn [fst]. split; [|split]; intros Hn;
      rewrite (fetch_outcome_other _ _ _ _ Hn Hs Hd Hne); reflexivity.
Qed.

End ReadMoreFacts.

Lemma read_failures_are_api_errors_witness :
  let missing := {| status_code := 404; text := "Not Found";
                    decoded := inl (JSONDecodeError "Expecting value") |} in
  let html := {| status_code := 200; text := "<html>";
                 decoded := inl (JSONDecodeError "Expecting value: line 1 column 1 (char 0)") |} in
  let latin := {| status_code := 200; text := "";
                  decoded := inl (UnicodeDecodeError "invalid start byte") |} in
  let on_reply resp := {| self := authenticated_client; world := replying resp |} in
  fst (get_single_article {| GetSingleArticleRequest.id := 59 |} (on_reply missing)) =
    Raise (WallabagApiError "API request failed: 404 - Not Found") ∧
  fst (get_articles GetArticlesRequest.default (on_reply missing)) =
    Raise (WallabagApiError "API request failed: 404 - Not Found") ∧
  fst (get_single_article {| GetSingleArticleRequest.id := 59 |} (on_reply html)) =
    Raise (WallabagApiError
             "Failed to parse article response: Expecting value: line 1 column 1 (char 0)") ∧
  fst (get_articles GetArticlesRequest.default (on_reply latin)) =
    Raise (UnicodeDecodeError "invalid start byte") ∧
  fst (search_articles {| SearchArticlesRequest.search_term := "rocq";
                          SearchArticlesRequest.count := None |} (on_reply latin)) =
    Raise (UnicodeDecodeError "invalid start byte").
Proof.
  intros missing html latin on_reply.
  pose (one := {| GetSingleArticleRequest.id := 59 |}).
  pose (term := {| SearchArticlesRequest.search_term := "rocq";
                   SearchArticlesRequest.count := None |}).
  destruct (read_failures_are_api_errors (on_reply missing) one GetArticlesRequest.default term
              "API request failed: 404 - Not Found" eq_refl) as (Hone & Hmany & _).
  destruct (read_failures_are_api_errors (on_reply html) one GetArticlesRequest.default term
              "Failed to parse article response: Expecting value: line 1 column 1 (char 0)"
              eq_refl) as (Hparse & _).
  destruct (read_failures_are_api_errors (on_reply latin) one GetArticlesRequest.default term
              "" eq_refl) as (_ & _ & _ & Hraw).
  assert (Hne : ∀ m, UnicodeDecodeError "invalid start byte" ≠ JSONDecodeError m)
    by discriminate.
  destruct (Hraw latin (UnicodeDecodeError "invalid start byte") eq_refl eq_refl Hne)
    as (_ & Hlist & Hsearch).
  split; [apply Hone; apply (bad_status _ missing); reflexivity|].
  split; [apply Hmany; apply (bad_status _ missing); reflexivity|].
  split; [apply Hparse;
          apply (undecodable_body "Failed to parse article response: " html
                   "Expecting value: line 1 column 1 (char 0)");
          reflexivity|].
  split; [exact (Hlist eq_refl) | exact (Hsearch eq_refl)].
Defined.

Section ReadRequests.
Context `{pyd : Pydantic}.

(** X9.  On an authenticated client [get_single_article] issues one request,
    a [GET] of [{base_url}/api/entries/{id}] (the id in decimal) with no
    query parameters, no form data and the token in the [Authorization]
    header; when the answer is a 2xx JSON body, the result is the [Article]
    built from that body, which must be an object: any other JSON value
    raises [TypeError]. *)
Theorem get_single_article_request_and_result (s : Session)
    (req : GetSingleArticleRequest.t) (resp : Response) (body : json) :
  truthy (access_token (self s)) = true →
  network (world s)
    {| req_method := "GET";
       req_url := base_url (self s) +:+ "/api/entries/" +:+ str_int (GetSingleArticleRequest.id req);
       req_params := None; req_data := None;
       req_headers := Some [Authorization_Bearer (access_token (self s))] |} = Responds resp →
  is_success resp = true →
  decoded resp = inr body →
  let out := get_single_article req s in
  sent (world (snd out)) =
    sent (world s) ++
    [{| req_method := "GET";
        req_url := base_url (self s) +:+ "/api/entries/" +:+ str_int (GetSingleArticleRequest.id req);
        req_params := None; req_data := None;
        req_headers := Some [Authorization_Bearer (access_token (self s))] |}] ∧
  fst out = match body with
            | JObj kw => Article.init kw
            | _ => Raise (TypeError ("wallabag_client.Article() argument after ** must be a mapping, not "
                                     +:+ type_name body))
            end.
Proof.
  intros Ht Hn Hs Hd out. subst out.
  rewrite get_single_article_run by done. cbn [fst snd].
  split; [apply sent_after_request|].
  unfold entry_request, mk_request. rewrite Hn.
  rewrite (fetch_outcome_json _ _ _ Hs Hd). simpl. by destruct body.
Qed.

(** X10.  On an authenticated client [search_articles] issues one request,
    whatever comes back: a [GET] of [{base_url}/api/search] whose query
    parameters are [term], the search term as it is, and then [perPage],
    the count in decimal when one is given and is not zero and ["100"]
    otherwise, with the token in the [Authorization] header. *)
Theorem search_articles_request (s : Session) (req : SearchArticlesRequest.t) :
  truthy (access_token (self s)) = true →
  sent (world (snd (search_articles req s))) =
  sent (world s) ++
  [{| req_method := "GET";
      req_url := base_url (self s) +:+ "/api/search";
      req_params :=
        Some [("term", SearchArticlesRequest.search_term req);
              ("perPage", match SearchArticlesRequest.count req with
                          | Some n => if Z.eqb n 0 then "100" else str_int n
                          | None => "100"
                          end)];
      req_data := None;
      req_headers := Some [Authorization_Bearer (access_token (self s))] |}].
Proof.
  intros Ht. rewrite search_articles_run by done. apply sent_after_request.
Qed.

End ReadRequests.

Lemma get_single_article_request_and_result_witness :
  let s := {| self := authenticated_client; world := answering (JObj entry_full) |} in
  let out := get_single_article {| GetSingleArticleRequest.id := 59 |} s in
  (req_url <$> sent (world (snd out))) = ["http://test-wallabag.com/api/entries/59"] ∧
  (Article.title <$> match fst out with Ok a => Some a | Raise _ => None end) = Some "Article 1".
Proof.
  intros s out.
  destruct (get_single_article_request_and_result s {| GetSingleArticleRequest.id := 59 |}
              (ok_response (JObj entry_full)) (JObj entry_full))
    as (Hsent & Hres); try reflexivity.
  subst out. rewrite Hsent, Hres. split; reflexivity.
Defined.

Lemma search_articles_request_witness :
  let s := {| self := authenticated_client; world := offline |} in
  let req := {| SearchArticlesRequest.search_term := "proof assistants";
                SearchArticlesRequest.count := Some 0 |} in
  (req_params <$> sent (world (snd (search_articles req s)))) =
  [Some [("term", "proof assistants"); ("perPage", "100")]].
Proof.
  intros s req. by rewrite (search_articles_request s req eq_refl).
Defined.

(** ** Transport handles across the public operations *)

Lemma handles_after_request (rq : Request) (s : Session) :
  ∃ hs, opened (world (after_request rq s)) = opened (world s) ++ hs ∧
        closed (world (after_request rq s)) = closed (world s) ++ hs ∧
        (is_Some (_client (self s)) → hs = []).
Proof.
  unfold opened, closed, after_request, request_events. cbn [world trace self].
  rewrite !omap_app.
  destruct (_client (self s)) as [h|]; simpl.
  - exists []. done.
  - exists [next_handle (world s)]. split; [done|]. split; [done|].
    by intros [? ?].
Qed.

Lemma handles_balanced (s : Session) (w' : World) :
  w' = world s ∨ (∃ rq, w' = world (after_request rq s)) →
  ∃ hs, opened w' = opened (world s) ++ hs ∧
        closed w' = closed (world s) ++ hs ∧
        (is_Some (_client (self s)) → hs = []).
Proof.
  intros [-> | [rq ->]].
  - exists []. by rewrite !app_nil_r.
  - apply handles_after_request.
Qed.

(** X11.  In every call of [authenticate] and of the three read operations,
    whatever the outcome, the handles the call opened are exactly the
    handles it closed; on a client built with the caller's transport it
    opens and closes none. *)
Theorem public_operations_release_what_they_open `{pyd : Pydantic} (s : Session)
    (client_id client_secret username password : option string)
    (one : GetSingleArticleRequest.t) (many : GetArticlesRequest.t)
    (term : SearchArticlesRequest.t) :
  let balanced (w' : World) :=
    ∃ hs, opened w' = opened (world s) ++ hs ∧
          closed w' = closed (world s) ++ hs ∧
          (is_Some (_client (self s)) → hs = []) in
  balanced (world (snd (authenticate client_id client_secret username password s))) ∧
  balanced (world (snd (get_single_article one s))) ∧
  balanced (world (snd (get_articles many s))) ∧
  balanced (world (snd (search_articles term s))).
Proof.
  cbv zeta. repeat split; apply handles_balanced.
  - apply authenticate_world_cases.
  - apply get_single_article_effect.
  - apply get_articles_effect.
  - apply search_articles_effect.
Qed.

(** X12.  The token that a successful [authenticate] stored is the token
    the next read operation sends: after the server has answered the token
    request with a truthy [access_token], [get_articles] on the resulting
    session goes past its guard and its request carries that token in the
    [Authorization] header. *)
Theorem authenticate_then_read_sends_the_token `{pyd : Pydantic} (s : Session)
    (client_id client_secret username password : option string)
    (cid csec user pw : string) (resp : Response) (body : gmap string json) (tok : json)
    (req : GetArticlesRequest.t) :
  or_else client_id (getenv (world s) "WALLABAG_CLIENT_ID") = Some cid →
  or_else client_secret (getenv (world s) "WALLABAG_CLIENT_SECRET") = Some csec →
  or_else username (getenv (world s) "WALLABAG_USERNAME") = Some user →
  or_else password (getenv (world s) "WALLABAG_PASSWORD") = Some pw →
  network (world s) (token_request (self s) cid csec user pw) = Responds resp →
  is_success resp = true →
  decoded resp = inr (JObj body) →
  body !! "access_token" = Some tok →
  truthy tok = true →
  let s1 := snd (authenticate client_id client_secret username password s) in
  let s2 := snd (get_articles req s1) in
  req_headers <$> sent (world s2) =
    (req_headers <$> sent (world s)) ++ [None; Some [Authorization_Bearer tok]] ∧
  access_token (self s2) = tok.
Proof.
  intros H1 H2 H3 H4 Hn Hs Hd Hb Ht s1 s2.
  assert (Hs1 : s1 = on_self (set_access_token tok)
                       (after_request (token_request (self s) cid csec user pw) s)).
  { subst s1. rewrite (authenticate_run s _ _ _ _ cid csec user pw H1 H2 H3 H4). cbv zeta.
    unfold token_outcome. rewrite Hn. simpl. rewrite Hs, Hd. simpl. by rewrite Hb. }
  assert (Htok : truthy (access_token (self s1)) = true) by (by rewrite Hs1).
  subst s2. rewrite get_articles_run by done. cbn [snd].
  rewrite sent_after_request. rewrite Hs1 at 1 2 3. cbn [world on_self self].
  rewrite sent_after_request, !fmap_app, <- app_assoc. split; [|by rewrite Hs1].
  reflexivity.
Qed.

Lemma authenticate_then_read_sends_the_token_witness :
  let s := {| self := new_client;
              world := wallabag (ok_response (token_body "fresh")) (ok_response (articles_body [])) |} in
  let s1 := snd (authenticate None None None None s) in
  let s2 := snd (get_articles GetArticlesRequest.default s1) in
  req_headers <$> sent (world s2) = [None; Some [Authorization_Bearer (JStr "fresh")]].
Proof.
  intros s s1 s2.
  destruct (authenticate_then_read_sends_the_token s None None None None
              "cid" "csecret" "user" "pw" (ok_response (token_body "fresh"))
              (list_to_map [("access_token", JStr "fresh"); ("expires_in", JInt 3600);
                            ("token_type", JStr "Bearer")])
              (JStr "fresh") GetArticlesRequest.default
              eq_refl eq_refl eq_refl eq_refl eq_refl eq_refl eq_refl eq_refl eq_refl)
    as (Hsent & _).
  exact Hsent.
Defined.

(** ** The list of entries in a response *)

Lemma comprehension_ok_iff {A B} (f : A → result B) (l : list A) (ys : list B) :
  comprehension f l = Ok ys ↔ Forall2 (λ x y, f x = Ok y) l ys.
Proof.
  revert ys. induction l as [|x l IH]; intros ys; simpl.
  - split; [intros [= <-]; constructor | by inversion 1].
  - destruct (f x) as [y|e] eqn:Hx; simpl.
    + destruct (comprehension f l) as [ys'|e] eqn:Hl; simpl.
      * split.
        -- intros [= <-]. constructor; [done | by apply IH].
        -- inversion 1 as [|? y' ? ys'' Hy Hrest]; subst.
           apply IH in Hrest. congruence.
      * split; [done|]. inversion 1 as [|? y' ? ys'' Hy Hrest]; subst.
        apply IH in Hrest. congruence.
    + split; [done|]. inversion 1; congruence.
Qed.

Lemma comprehension_first_failure {A B} (f : A → result B) (good : list A) (bad : A)
    (rest : list A) (e : exn) :
  Forall (λ x, ∃ y, f x = Ok y) good → f bad = Raise e →
  comprehension f (good ++ bad :: rest) = Raise e.
Proof.
  intros Hgood Hbad. induction Hgood as [|x good [y Hx] _ IH]; simpl.
  - by rewrite Hbad.
  - by rewrite Hx, IH.
Qed.

Section EntryLists.
Context `{pyd : Pydantic}.

Lemma articles_of_items (m e : gmap string json) (items : list json) :
  m !! "_embedded" = Some (JObj e) → e !! "items" = Some (JArr items) →
  articles_of (JObj m) = comprehension Article.init_from items.
Proof. intros Hm He. unfold articles_of. simpl. rewrite Hm. simpl. by rewrite He. Qed.

Lemma listing_result (s : Session) (many : GetArticlesRequest.t)
    (term : SearchArticlesRequest.t) (resp : Response) (body : json) :
  truthy (access_token (self s)) = true →
  is_success resp = true →
  decoded resp = inr body →
  (network (world s) (entries_request (self s) many) = Responds resp →
   fst (get_articles many s) = articles_of body) ∧
  (network (world s) (search_request (self s) term) = Responds resp →
   fst (search_articles term s) = articles_of body).
Proof.
  intros Ht Hs Hd. split; intros Hn.
  - rewrite get_articles_run by done. simpl.
    by rewrite Hn, (fetch_outcome_json _ _ _ Hs Hd).
  - rewrite search_articles_run by done. simpl.
    by rewrite Hn, (fetch_outcome_json _ _ _ Hs Hd).
Qed.

(** X13.  On an authenticated client, when the server answers
    [get_articles] or [search_articles] with a 2xx JSON object whose
    [_embedded.items] is a list, the operation returns a list exactly when
    every item builds an [Article], and then it is the list of those
    articles, one per item and in the order of the items; otherwise it
    raises what the first item that fails to build raises, and nothing is
    returned for the items before it. *)
Theorem listing_is_one_article_per_item (s : Session) (many : GetArticlesRequest.t)
    (term : SearchArticlesRequest.t) (resp : Response)
    (body embedded : gmap string json) (items : list json) :
  truthy (access_token (self s)) = true →
  is_success resp = true →
  decoded resp = inr (JObj body) →
  body !! "_embedded" = Some (JObj embedded) →
  embedded !! "items" = Some (JArr items) →
  let listing (r : result (list Article.t)) :=
    (∀ arts, r = Ok arts ↔ Forall2 (λ item a, Article.init_from item = Ok a) items arts) ∧
    (∀ good bad rest e,
       items = good ++ bad :: rest →
       Forall (λ item, ∃ a, Article.init_from item = Ok a) good →
       Article.init_from bad = Raise e →
       r = Raise e) in
  (network (world s) (entries_request (self s) many) = Responds resp →
   listing (fst (get_articles many s))) ∧
  (network (world s) (search_request (self s) term) = Responds resp →
   listing (fst (search_articles term s))).
Proof.
  intros Ht Hs Hd Hm He listing.
  assert (Hl : listing (articles_of (JObj body))).
  { subst listing. cbv beta. rewrite (articles_of_items _ _ _ Hm He). split.
    - intros arts. apply comprehension_ok_iff.
    - intros good bad rest e -> Hgood Hbad. by apply comprehension_first_failure. }
  destruct (listing_result s many term resp (JObj body) Ht Hs Hd) as [Hget Hsearch].
  split; intros Hn; [rewrite (Hget Hn) | rewrite (Hsearch Hn)]; exact Hl.
Qed.

(** X14.  The default of [.get("items", [])] applies only when the key is
    absent.  On an authenticated client, when the server answers with a 2xx
    JSON object whose [_embedded] has an [items] member that is null, a
    boolean or a number, [get_articles] and [search_articles] raise
    [TypeError] (the value is not iterable) instead of returning an empty
    list. *)
Theorem items_that_cannot_be_iterated (s : Session) (many : GetArticlesRequest.t)
    (term : SearchArticlesRequest.t) (resp : Response)
    (body embedded : gmap string json) (items : json) :
  truthy (access_token (self s)) = true →
  is_success resp = true →
  decoded resp = inr (JObj body) →
  body !! "_embedded" = Some (JObj embedded) →
  embedded !! "items" = Some items →
  match items with JArr _ | JObj _ | JStr _ => False | _ => True end →
  (network (world s) (entries_request (self s) many) = Responds resp →
   fst (get_articles many s) =
   Raise (TypeError ("'" +:+ type_name items +:+ "' object is not iterable"))) ∧
  (network (world s) (search_request (self s) term) = Responds resp →
   fst (search_articles term s) =
   Raise (TypeError ("'" +:+ type_name items +:+ "' object is not iterable"))).
Proof.
  intros Ht Hs Hd Hm He Hitems.
  assert (Hl : articles_of (JObj body) =
               Raise (TypeError ("'" +:+ type_name items +:+ "' object is not iterable"))).
  { unfold articles_of. simpl. rewrite Hm. simpl. rewrite He. simpl.
    by destruct items. }
  destruct (listing_result s many term resp (JObj body) Ht Hs Hd) as [Hget Hsearch].
  split; intros Hn; [rewrite (Hget Hn) | rewrite (Hsearch Hn)]; exact Hl.
Qed.

End EntryLists.

Lemma listing_is_one_article_per_item_witness :
  let s := {| self := authenticated_client;
              world := answering (articles_body [entry_full; entry_without_content; entry_second]) |} in
  ∃ e, fst (get_articles GetArticlesRequest.default s) = Raise e ∧
       Article.init entry_without_content = Raise e.
Proof.
  intros s.
  destruct (Article.init entry_without_content) as [a|e] eqn:Hbad; [discriminate Hbad|].
  exists e. split; [|reflexivity].
  destruct (listing_is_one_article_per_item s GetArticlesRequest.default
              {| SearchArticlesRequest.search_term := ""; SearchArticlesRequest.count := None |}
              (ok_response (articles_body [entry_full; entry_without_content; entry_second]))
              {[ "_embedded" := JObj {[ "items" := JArr (JObj <$> [entry_full; entry_without_content; entry_second]) ]} ]}
              {[ "items" := JArr (JObj <$> [entry_full; entry_without_content; entry_second]) ]}
              (JObj <$> [entry_full; entry_without_content; entry_second])
              eq_refl eq_refl eq_refl eq_refl eq_refl) as (Hget & _).
  destruct (Hget eq_refl) as (_ & Hfirst).
  apply (Hfirst [JObj entry_full] (JObj entry_without_content) [JObj entry_second]).
  - reflexivity.
  - constructor; [|constructor]. eexists. vm_compute. reflexivity.
  - exact Hbad.
Defined.

Lemma items_that_cannot_be_iterated_witness :
  let body := JObj {[ "_embedded" := JObj {[ "items" := JNull ]} ]} in
  let s := {| self := authenticated_client; world := answering body |} in
  fst (get_articles GetArticlesRequest.default s) =
  Raise (TypeError "'NoneType' object is not iterable").
Proof.
  intros body s.
  destruct (items_that_cannot_be_iterated s GetArticlesRequest.default
              {| SearchArticlesRequest.search_term := ""; SearchArticlesRequest.count := None |}
              (ok_response body) {[ "_embedded" := JObj {[ "items" := JNull ]} ]}
              {[ "items" := JNull ]} JNull
              eq_refl eq_refl eq_refl eq_refl eq_refl I) as (Hget & _).
  exact (Hget eq_refl).
Defined.

(** ** Building an article *)

Section ArticleMoreFacts.
Context `{pyd : Pydantic}.

Local Abbreviation r_id kw := (required validate_int (kw !! "id")).
Local Abbreviation r_title kw := (required validate_str (kw !! "title")).
Local Abbreviation r_url kw := (required validate_str (kw !! "url")).
Local Abbreviation r_content kw := (required (nullable validate_str) (kw !! "content")).
Local Abbreviation r_created_at kw := (required validate_datetime (kw !! "created_at")).
Local Abbreviation r_updated_at kw := (required validate_datetime (kw !! "updated_at")).
Local Abbreviation r_reading_time kw :=
  (defaulted (nullable validate_int) None (kw !! "reading_time")).
Local Abbreviation r_domain_name kw :=
  (defaulted (nullable validate_str) None (kw !! "domain_name")).
Local Abbreviation r_preview_picture kw :=
  (defaulted (nullable validate_str) None (kw !! "preview_picture")).
Local Abbreviation r_http_status kw :=
  (defaulted (nullable validate_str) None (kw !! "http_status")).
Local Abbreviation r_is_archived kw := (defaulted validate_bool false (kw !! "is_archived")).
Local Abbreviation r_is_starred kw := (defaulted validate_bool false (kw !! "is_starred")).

Local Ltac name_results kw :=
  set (x1 := r_id kw) in *; set (x2 := r_title kw) in *; set (x3 := r_url kw) in *;
  set (x4 := r_content kw) in *; set (x5 := r_created_at kw) in *;
  set (x6 := r_updated_at kw) in *; set (x7 := r_reading_time kw) in *;
  set (x8 := r_domain_name kw) in *; set (x9 := r_preview_picture kw) in *;
  set (x10 := r_http_status kw) in *; set (x11 := r_is_archived kw) in *;
  set (x12 := r_is_starred kw) in *.

Lemma init_ok_results (kw : gmap string json) (a : Article.t) :
  Article.init kw = Ok a →
  r_id kw = inr (Article.id a) ∧ r_title kw = inr (Article.title a) ∧
  r_url kw = inr (Article.url a) ∧ r_content kw = inr (Article.content a) ∧
  r_created_at kw = inr (Article.created_at a) ∧
  r_updated_at kw = inr (Article.updated_at a) ∧
  r_reading_time kw = inr (Article.reading_time a) ∧
  r_domain_name kw = inr (Article.domain_name a) ∧
  r_preview_picture kw = inr (Article.preview_picture a) ∧
  r_http_status kw = inr (Article.http_status a) ∧
  r_is_archived kw = inr (Article.is_archived a) ∧
  r_is_starred kw = inr (Article.is_starred a).
Proof.
  unfold Article.init. cbv zeta. name_results kw.
  destruct x1; [discriminate|]. destruct x2; [discriminate|].
  destruct x3; [discriminate|]. destruct x4; [discriminate|].
  destruct x5; [discriminate|]. destruct x6; [discriminate|].
  destruct x7; [discriminate|]. destruct x8; [discriminate|].
  destruct x9; [discriminate|]. destruct x10; [discriminate|].
  destruct x11; [discriminate|]. destruct x12; [discriminate|].
  intros [= <-]. done.
Qed.

Lemma init_results_ok (kw : gmap string json) i ti u c ca ua rt dn pp hs ar st :
  r_id kw = inr i → r_title kw = inr ti → r_url kw = inr u → r_content kw = inr c →
  r_created_at kw = inr ca → r_updated_at kw = inr ua → r_reading_time kw = inr rt →
  r_domain_name kw = inr dn → r_preview_picture kw = inr pp → r_http_status kw = inr hs →
  r_is_archived kw = inr ar → r_is_starred kw = inr st →
  ∃ a, Article.init kw = Ok a.
Proof.
  intros H1 H2 H3 H4 H5 H6 H7 H8 H9 H10 H11 H12. unfold Article.init. cbv zeta.
  rewrite H1, H2, H3, H4, H5, H6, H7, H8, H9, H10, H11, H12. by eexists.
Qed.

(** Construction raises nothing but the validation error, and the report
    lists the failing fields in declaration order. *)
Lemma init_raise_errors (kw : gmap string json) (e : exn) :
  Article.init kw = Raise e →
  ∃ msg, e = ValidationError msg
    (field_errors "id" (r_id kw) ++ field_errors "title" (r_title kw) ++
     field_errors "url" (r_url kw) ++ field_errors "content" (r_content kw) ++
     field_errors "created_at" (r_created_at kw) ++
     field_errors "updated_at" (r_updated_at kw) ++
     field_errors "reading_time" (r_reading_time kw) ++
     field_errors "domain_name" (r_domain_name kw) ++
     field_errors "preview_picture" (r_preview_picture kw) ++
     field_errors "http_status" (r_http_status kw) ++
     field_errors "is_archived" (r_is_archived kw) ++
     field_errors "is_starred" (r_is_starred kw)).
Proof.
  unfold Article.init. cbv zeta. name_results kw.
  destruct x1; [intros [= <-]; by eexists|]. destruct x2; [intros [= <-]; by eexists|].
  destruct x3; [intros [= <-]; by eexists|]. destruct x4; [intros [= <-]; by eexists|].
  destruct x5; [intros [= <-]; by eexists|]. destruct x6; [intros [= <-]; by eexists|].
  destruct x7; [intros [= <-]; by eexists|]. destruct x8; [intros [= <-]; by eexists|].
  destruct x9; [intros [= <-]; by eexists|]. destruct x10; [intros [= <-]; by eexists|].
  destruct x11; [intros [= <-]; by eexists|]. destruct x12; [intros [= <-]; by eexists|].
  discriminate.
Qed.

Lemma required_inr {A} (v : json → option A) (o : option json) :
  (∃ x, required v o = inr x) ↔ ∃ j, o = Some j ∧ accepted v j = true.
Proof.
  unfold required, accepted. destruct o as [j|].
  - destruct (v j) eqn:Hv; split.
    + intros _. exists j. by rewrite Hv.
    + by eexists.
    + by intros [? ?].
    + intros (j' & [= <-] & Hj). by rewrite Hv in Hj.
  - split; [by intros [? ?] | by intros (? & ? & ?)].
Qed.

Lemma defaulted_inr {A} (v : json → option A) (d : A) (o : option json) :
  (∃ x, defaulted v d o = inr x) ↔ ∀ j, o = Some j → accepted v j = true.
Proof.
  unfold defaulted, accepted. destruct o as [j|].
  - destruct (v j) eqn:Hv; split.
    + intros _ j' [= <-]. by rewrite Hv.
    + by eexists.
    + by intros [? ?].
    + intros Hj. specialize (Hj j eq_refl). by rewrite Hv in Hj.
  - split; [done | by eexists].
Qed.

End ArticleMoreFacts.

Section ArticleTheorems.
Context `{pyd : Pydantic}.

Lemma required_inr_inv {A} (v : json → option A) (o : option json) (x : A) :
  required v o = inr x → is_Some o ∧ ∀ j, o = Some j → accepted v j = true.
Proof.
  intros Hr. destruct (proj1 (required_inr v o) (ex_intro _ x Hr)) as (j & -> & Hj).
  split; [by eexists | by intros j' [= <-]].
Qed.

Lemma defaulted_inr_inv {A} (v : json → option A) (d : A) (o : option json) (x : A) :
  defaulted v d o = inr x → ∀ j, o = Some j → accepted v j = true.
Proof. intros Hr. apply (proj1 (defaulted_inr v d o)). by exists x. Qed.

Lemma required_inr_intro {A} (v : json → option A) (o : option json) :
  is_Some o → (∀ j, o = Some j → accepted v j = true) → ∃ x, required v o = inr x.
Proof. intros [j ->] Hacc. apply required_inr. exists j. auto. Qed.

(** X15.  An [Article] is built exactly when the six keys declared without
    a default ([id], [title], [url], [content], [created_at], [updated_at])
    are all present and every field that is supplied holds a value its
    declared type accepts (null being accepted by the five [Optional]
    fields); a default stands in for an absent key only, never for a value
    that is refused. *)
Theorem article_is_built_iff (kw : gmap string json) :
  (∃ a, Article.init kw = Ok a) ↔
  (∀ k, k ∈ Article_required → is_Some (kw !! k)) ∧
  (∀ k accepts j, (k, accepts) ∈ Article_validators → kw !! k = Some j → accepts j = true).
Proof.
  split.
  - intros [a Ha].
    apply init_ok_results in Ha as (H1 & H2 & H3 & H4 & H5 & H6 & H7 & H8 & H9 & H10 & H11 & H12).
    apply required_inr_inv in H1 as [? ?], H2 as [? ?], H3 as [? ?], H4 as [? ?],
        H5 as [? ?], H6 as [? ?].
    pose proof (defaulted_inr_inv _ _ _ _ H7). pose proof (defaulted_inr_inv _ _ _ _ H8).
    pose proof (defaulted_inr_inv _ _ _ _ H9). pose proof (defaulted_inr_inv _ _ _ _ H10).
    pose proof (defaulted_inr_inv _ _ _ _ H11). pose proof (defaulted_inr_inv _ _ _ _ H12).
    split.
    + intros k Hk. unfold Article_required in Hk.
      repeat (apply elem_of_cons in Hk as [-> | Hk]; [done|]).
      by apply elem_of_nil in Hk.
    + intros k accepts j Hk Hj. unfold Article_validators in Hk.
      repeat (apply elem_of_cons in Hk as [[= -> ->] | Hk]; [by auto|]).
      by apply elem_of_nil in Hk.
  - intros [Hreq Hacc].
    destruct (required_inr_intro validate_int (kw !! "id")) as [i Hi];
      [apply Hreq; unfold Article_required; by repeat constructor
      | intros j; apply (Hacc "id"); unfold Article_validators; by repeat constructor |].
    destruct (required_inr_intro validate_str (kw !! "title")) as [ti Hti];
      [apply Hreq; unfold Article_required; by repeat constructor
      | intros j; apply (Hacc "title"); unfold Article_validators; by repeat constructor |].
    destruct (required_inr_intro validate_str (kw !! "url")) as [u Hu];
      [apply Hreq; unfold Article_required; by repeat constructor
      | intros j; apply (Hacc "url"); unfold Article_validators; by repeat constructor |].
    destruct (required_inr_intro (nullable validate_str) (kw !! "content")) as [c Hc];
      [apply Hreq; unfold Article_required; by repeat constructor
      | intros j; apply (Hacc "content"); unfold Article_validators; by repeat constructor |].
    destruct (required_inr_intro validate_datetime (kw !! "created_at")) as [ca Hca];
      [apply Hreq; unfold Article_required; by repeat constructor
      | intros j; apply (Hacc "created_at"); unfold Article_validators; by repeat constructor |].
    destruct (required_inr_intro validate_datetime (kw !! "updated_at")) as [ua Hua];
      [apply Hreq; unfold Article_required; by repeat constructor
      | intros j; apply (Hacc "updated_at"); unfold Article_validators; by repeat constructor |].
    destruct (proj2 (defaulted_inr (nullable validate_int) None (kw !! "reading_time")))
      as [rt Hrt]; [intros j; apply (Hacc "reading_time"); unfold Article_validators; by repeat constructor |].
    destruct (proj2 (defaulted_inr (nullable validate_str) None (kw !! "domain_name")))
      as [dn Hdn]; [intros j; apply (Hacc "domain_name"); unfold Article_validators; by repeat constructor |].
    destruct (proj2 (defaulted_inr (nullable validate_str) None (kw !! "preview_picture")))
      as [pp Hpp]; [intros j; apply (Hacc "preview_picture"); unfold Article_validators; by repeat constructor |].
    destruct (proj2 (defaulted_inr (nullable validate_str) None (kw !! "http_status")))
      as [hs Hhs]; [intros j; apply (Hacc "http_status"); unfold Article_validators; by repeat constructor |].
    destruct (proj2 (defaulted_inr validate_bool false (kw !! "is_archived")))
      as [ar Har]; [intros j; apply (Hacc "is_archived"); unfold Article_validators; by repeat constructor |].
    destruct (proj2 (defaulted_inr validate_bool false (kw !! "is_starred")))
      as [st Hst]; [intros j; apply (Hacc "is_starred"); unfold Article_validators; by repeat constructor |].
    by eapply init_results_ok.
Qed.

End ArticleTheorems.

Section ArticleReports.
Context `{pyd : Pydantic}.

Lemma field_errors_required {A} (name k : string) (fe : FieldError)
    (v : json → option A) (o : option json) :
  (k, fe) ∈ field_errors name (required v o) ↔
  k = name ∧ ((fe = Missing ∧ o = None) ∨
              (fe = Invalid ∧ ∃ j, o = Some j ∧ accepted v j = false)).
Proof.
  unfold field_errors, required, accepted. destruct o as [j|].
  - destruct (v j) eqn:Hv.
    + rewrite elem_of_nil. split; [done|].
      intros (_ & [[_ [=]] | (_ & j' & [= <-] & Hj)]). by rewrite Hv in Hj.
    + rewrite list_elem_of_singleton. split.
      * intros [= -> ->]. split; [done|]. right. split; [done|]. exists j. by rewrite Hv.
      * by intros (-> & [[_ [=]] | (-> & _)]).
  - rewrite list_elem_of_singleton. split.
    + intros [= -> ->]. split; [done | by left].
    + by intros (-> & [[-> _] | (_ & j' & [=] & _)]).
Qed.

Lemma field_errors_defaulted {A} (name k : string) (fe : FieldError)
    (v : json → option A) (d : A) (o : option json) :
  (k, fe) ∈ field_errors name (defaulted v d o) ↔
  k = name ∧ fe = Invalid ∧ ∃ j, o = Some j ∧ accepted v j = false.
Proof.
  unfold field_errors, defaulted, accepted. destruct o as [j|].
  - destruct (v j) eqn:Hv.
    + rewrite elem_of_nil. split; [done|].
      intros (_ & _ & j' & [= <-] & Hj). by rewrite Hv in Hj.
    + rewrite list_elem_of_singleton. split.
      * intros [= -> ->]. split; [done|]. split; [done|]. exists j. by rewrite Hv.
      * by intros (-> & -> & _).
  - rewrite elem_of_nil. split; [done|]. by intros (_ & _ & j' & [=] & _).
Qed.

(** X16.  When building an [Article] fails, what is raised is a validation
    error whose report is exact: it lists a key as missing exactly when the
    key is one of the six declared without a default and is absent, and it
    lists a key as invalid exactly when the key names a field and the value
    supplied for it is refused by the field's declared type.  All failing
    fields are reported together, not only the first. *)
Theorem article_error_report_is_exact (kw : gmap string json) (e : exn) :
  Article.init kw = Raise e →
  ∃ msg errors, e = ValidationError msg errors ∧
    (∀ k, (k, Missing) ∈ errors ↔ k ∈ Article_required ∧ kw !! k = None) ∧
    (∀ k, (k, Invalid) ∈ errors ↔
          ∃ accepts j, (k, accepts) ∈ Article_validators ∧ kw !! k = Some j ∧
                       accepts j = false).
Proof.
  intros He. apply init_raise_errors in He as [msg ->].
  eexists _, _. split; [reflexivity|]. split; intros k.
  - rewrite !elem_of_app, !field_errors_required, !field_errors_defaulted.
    unfold Article_required. rewrite !elem_of_cons, elem_of_nil.
    split.
    + intros H. repeat destruct H as [H | H]; destruct H as [-> H];
        first [ destruct H as [[_ Hk] | [[=] _]]; by auto 10
              | by destruct H as [[=] _] ].
    + intros [Hk Hnone].
      repeat destruct Hk as [-> | Hk]; [..| done];
        repeat first [ by (left; split; [done | by left])
                     | by (split; [done | by left])
                     | right ].
  - rewrite !elem_of_app, !field_errors_required, !field_errors_defaulted. split.
    + intros H. unfold Article_validators.
      repeat destruct H as [H | H]; destruct H as [-> H];
        first [ destruct H as [[[=] _] | [_ (j & Hj & Hacc)]]
              | destruct H as [_ (j & Hj & Hacc)] ];
        (eexists _, j; split; [|by split]; by repeat constructor).
    + intros (accepts & j & Hk & Hj & Hacc). unfold Article_validators in Hk.
      rewrite !elem_of_cons, elem_of_nil in Hk.
      repeat destruct Hk as [[= -> ->] | Hk]; [..| done];
        repeat first [ by (left; split; [done | right; split; [done | by exists j]])
                     | by (left; split; [done | split; [done | by exists j]])
                     | by (split; [done | split; [done | by exists j]])
                     | right ].
Qed.

(** X17.  What a built [Article] holds: every required field is the
    validated value of its key; [content] and the four optional fields are
    [None] for a null (and, for the four with a default, for an absent
    key) and otherwise the validated value; the two flags are [False] for
    an absent key and otherwise the validated value. *)
Theorem article_holds_the_validated_values (kw : gmap string json) (a : Article.t) :
  Article.init kw = Ok a →
  kw !! "id" ≫= validate_int = Some (Article.id a) ∧
  kw !! "title" ≫= validate_str = Some (Article.title a) ∧
  kw !! "url" ≫= validate_str = Some (Article.url a) ∧
  (∃ j, kw !! "content" = Some j ∧
        Article.content a = match j with JNull => None | _ => validate_str j end) ∧
  kw !! "created_at" ≫= validate_datetime = Some (Article.created_at a) ∧
  kw !! "updated_at" ≫= validate_datetime = Some (Article.updated_at a) ∧
  Article.reading_time a =
    match kw !! "reading_time" with
    | None | Some JNull => None | Some j => validate_int j end ∧
  Article.domain_name a =
    match kw !! "domain_name" with
    | None | Some JNull => None | Some j => validate_str j end ∧
  Article.preview_picture a =
    match kw !! "preview_picture" with
    | None | Some JNull => None | Some j => validate_str j end ∧
  Article.http_status a =
    match kw !! "http_status" with
    | None | Some JNull => None | Some j => validate_str j end ∧
  Some (Article.is_archived a) =
    match kw !! "is_archived" with None => Some false | Some j => validate_bool j end ∧
  Some (Article.is_starred a) =
    match kw !! "is_starred" with None => Some false | Some j => validate_bool j end.
Proof.
  intros Ha.
  apply init_ok_results in Ha as (H1 & H2 & H3 & H4 & H5 & H6 & H7 & H8 & H9 & H10 & H11 & H12).
  unfold required, defaulted, nullable in *.
  repeat split.
  - destruct (kw !! "id") as [j|]; [|done]. simpl. destruct (validate_int j); congruence.
  - destruct (kw !! "title") as [j|]; [|done]. simpl. destruct (validate_str j); congruence.
  - destruct (kw !! "url") as [j|]; [|done]. simpl. destruct (validate_str j); congruence.
  - destruct (kw !! "content") as [j|]; [|done]. exists j. split; [done|].
    destruct j; try (destruct (validate_str _)); congruence.
  - destruct (kw !! "created_at") as [j|]; [|done]. simpl.
    destruct (validate_datetime j); congruence.
  - destruct (kw !! "updated_at") as [j|]; [|done]. simpl.
    destruct (validate_datetime j); congruence.
  - destruct (kw !! "reading_time") as [j|]; [|congruence].
    destruct j; try (destruct (validate_int _)); congruence.
  - destruct (kw !! "domain_name") as [j|]; [|congruence].
    destruct j; try (destruct (validate_str _)); congruence.
  - destruct (kw !! "preview_picture") as [j|]; [|congruence].
    destruct j; try (destruct (validate_str _)); congruence.
  - destruct (kw !! "http_status") as [j|]; [|congruence].
    destruct j; try (destruct (validate_str _)); congruence.
  - destruct (kw !! "is_archived") as [j|]; [|congruence].
    destruct (validate_bool j); congruence.
  - destruct (kw !! "is_starred") as [j|]; [|congruence].
    destruct (validate_bool j); congruence.
Qed.


End ArticleReports.

Lemma article_error_report_is_exact_witness :
  ∃ msg errors,
    Article.init (<["title" := JInt 7]> entry_without_content) =
      Raise (ValidationError msg errors) ∧
    ("content", Missing) ∈ errors ∧ ("title", Invalid) ∈ errors ∧
    ("reading_time", Missing) ∉ errors.
Proof.
  destruct (Article.init (<["title" := JInt 7]> entry_without_content)) as [a|e] eqn:He;
    [discriminate He|].
  destruct (article_error_report_is_exact _ e He) as (msg & errors & -> & Hmissing & Hinvalid).
  exists msg, errors. split; [reflexivity|]. split; [|split].
  - apply Hmissing. split; [unfold Article_required; by repeat constructor | reflexivity].
  - apply Hinvalid. exists (accepted validate_str), (JInt 7).
    split; [unfold Article_validators; by repeat constructor | by split].
  - intros [Hreq _]%Hmissing. unfold Article_required in Hreq.
    rewrite !elem_of_cons, elem_of_nil in Hreq.
    repeat destruct Hreq as [Hreq | Hreq]; done.
Defined.

Lemma article_holds_the_validated_values_witness :
  ∃ a, Article.init entry_second = Ok a ∧
       Article.id a = 2 ∧ Article.content a = Some "Content 2" ∧
       Article.preview_picture a = None ∧ Article.reading_time a = Some 10 ∧
       Article.is_archived a = true.
Proof.
  destruct (Article.init entry_second) as [a|e] eqn:Ha; [|discriminate Ha].
  exists a. split; [reflexivity|].
  destruct (article_holds_the_validated_values entry_second a Ha)
    as (Hid & _ & _ & (j & Hj & Hcontent) & _ & _ & Hrt & _ & Hpp & _ & Har & _).
  injection Hid as <-. injection Hj as <-. rewrite Hcontent, Hrt, Hpp.
  injection Har as ->. repeat split.
Defined.


(** ** The tool adapters, continued *)

Lemma initialize_client_success (w : World) (url cid csec user pw : string)
    (resp : Response) (body : gmap string json) (tok : json) :
  environ w !! "WALLABAG_BASE_URL" = Some url → url ≠ "" →
  environ w !! "WALLABAG_CLIENT_ID" = Some cid →
  environ w !! "WALLABAG_CLIENT_SECRET" = Some csec →
  environ w !! "WALLABAG_USERNAME" = Some user →
  environ w !! "WALLABAG_PASSWORD" = Some pw →
  let c0 := {| base_url := url; access_token := JNull; _client := None |} in
  network w (token_request c0 cid csec user pw) = Responds resp →
  is_success resp = true →
  decoded resp = inr (JObj body) →
  body !! "access_token" = Some tok →
  truthy tok = true →
  initialize_client w =
  (Ok {| base_url := url; access_token := tok; _client := None |},
   world (after_request (token_request c0 cid csec user pw) {| self := c0; world := w |})).
Proof.
  intros Hurl Hne Hcid Hcsec Huser Hpw c0 Hn Hs Hd Hb Ht.
  unfold initialize_client, bind at 1.
  assert (Hinit : WallabagClient_init None None w = (Ok c0, w)).
  { unfold WallabagClient_init, bind, get, or_else, getenv. rewrite Hurl.
    by rewrite (str_truthy_nonempty url Hne). }
  rewrite Hinit. unfold bind, call_on, ret.
  rewrite (authenticate_run {| self := c0; world := w |} None None None None cid csec user pw);
    [|by unfold or_else, getenv; simpl; rewrite ?Hcid, ?Hcsec, ?Huser, ?Hpw ..].
  cbv zeta. cbn [self world]. unfold token_outcome. rewrite Hn. simpl.
  rewrite Hs, Hd. simpl. rewrite Hb. simpl. by rewrite Ht.
Qed.

Lemma adapter_after_initialization (body : WallabagClient → M Server ToolOutput)
    (sv : Server) (c1 : WallabagClient) (w1 : World) :
  client sv = None →
  initialize_client (process sv) = (Ok c1, w1) →
  (let* c := ensure_client in try_except (body c) failure_envelope) sv =
  try_except (body c1) failure_envelope {| client := Some c1; process := w1 |}.
Proof.
  intros Hc Hinit. unfold bind at 1. unfold ensure_client, bind at 1, get.
  rewrite Hc. unfold bind at 1, in_process. rewrite Hinit.
  reflexivity.
Qed.

Lemma adapter_state_after_failed_initialization
    (body : WallabagClient → M Server ToolOutput) (sv : Server) (e : exn) :
  client sv = None →
  fst (initialize_client (process sv)) = Raise e →
  client (snd ((let* c := ensure_client in try_except (body c) failure_envelope) sv)) = None.
Proof.
  intros Hc He. unfold bind at 1. unfold ensure_client, bind at 1, get.
  rewrite Hc. unfold bind at 1, in_process.
  destruct (initialize_client (process sv)) as [[c|e'] w]; simpl in *; congruence.
Qed.

Section AdapterRuns.
Context `{pyd : Pydantic}.

Lemma guarded_call_run {A} (c : WallabagClient) (m : M Session A) (wrap : A → ToolOutput)
    (sv : Server) :
  try_except (let* x := call_on_global c m in ret (wrap x)) failure_envelope sv =
  (Ok (match fst (m {| self := c; world := process sv |}) with
       | Ok x => wrap x
       | Raise e => Failure (str_exn e)
       end),
   {| client := Some (self (snd (m {| self := c; world := process sv |})));
      process := world (snd (m {| self := c; world := process sv |})) |}).
Proof.
  unfold try_except, bind, call_on_global, failure_envelope, ret.
  destruct (m _) as [[x|e] s']; reflexivity.
Qed.

Lemma guarded_after_ret {A B} (x : A) (k : A → M Server B)
    (h : exn → option (M Server B)) (sv : Server) :
  try_except (let* y := ret x in k y) h sv = try_except (k x) h sv.
Proof. reflexivity. Qed.

End AdapterRuns.

Section AdapterTheorems.
Context `{pyd : Pydantic}.

(** X19.  Once the global client exists, [get_single_wallabag_article],
    [search_articles] and [get_wallabag_articles] called without
    [since_days_ago] return an envelope that mirrors the client call they
    wrap (for the last one, [get_articles] with no [since]): the success
    envelope with the article, or with the articles and their number, when
    the call returns, and the failure envelope carrying the text of the
    exception when the call raises, whatever the exception is. *)
Theorem adapters_mirror_the_client_call (sv : Server) (c : WallabagClient)
    (id : Z) (is_archived : bool) (domain : option string) (count : option Z)
    (sort_order : SortOrder) (include_content : bool) (search_term : string) :
  client sv = Some c →
  let s := {| self := c; world := process sv |} in
  fst (server.get_single_wallabag_article id sv) =
    Ok (match fst (get_single_article {| GetSingleArticleRequest.id := id |} s) with
        | Ok a => SingleArticle a
        | Raise e => Failure (str_exn e)
        end) ∧
  fst (server.get_wallabag_articles is_archived domain None count sort_order
         include_content sv) =
    Ok (match fst (get_articles
                     {| GetArticlesRequest.is_archived := is_archived;
                        GetArticlesRequest.since := None;
                        GetArticlesRequest.domain := domain;
                        GetArticlesRequest.count := count;
                        GetArticlesRequest.sort_order := sort_order;
                        GetArticlesRequest.include_content := include_content |} s) with
        | Ok l => SavedArticles (length l) l
        | Raise e => Failure (str_exn e)
        end) ∧
  fst (server.search_articles search_term count sv) =
    Ok (match fst (search_articles
                     {| SearchArticlesRequest.search_term := search_term;
                        SearchArticlesRequest.count := count |} s) with
        | Ok l => SearchResults (length l) l
        | Raise e => Failure (str_exn e)
        end).
Proof.
  intros Hc s.
  unfold server.get_single_wallabag_article, server.get_wallabag_articles,
    server.search_articles.
  rewrite !(adapter_ready _ sv c Hc).
  split; [|split].
  - by rewrite (guarded_call_run c _ SingleArticle sv).
  - rewrite guarded_after_ret.
    by rewrite (guarded_call_run c _ (λ l, SavedArticles (length l) l) sv).
  - by rewrite (guarded_call_run c _ (λ l, SearchResults (length l) l) sv).
Qed.

(** X20.  Once the global client exists and holds a token, a call of
    [get_single_wallabag_article], of [search_articles] or of
    [get_wallabag_articles] without [since_days_ago] does not authenticate
    again: exactly one request goes out, the data request of the wrapped
    client call (for the last one, that of [get_articles] with no [since]),
    and the global client is the same afterwards, whatever the server
    answers. *)
Theorem adapters_reuse_the_client (sv : Server) (c : WallabagClient)
    (id : Z) (is_archived : bool) (domain : option string) (count : option Z)
    (sort_order : SortOrder) (include_content : bool) (search_term : string) :
  client sv = Some c →
  truthy (access_token c) = true →
  let after (out : result ToolOutput * Server) (rq : Request) :=
    client (snd out) = Some c ∧
    sent (process (snd out)) = sent (process sv) ++ [rq] in
  after (server.get_single_wallabag_article id sv)
    (entry_request c {| GetSingleArticleRequest.id := id |}) ∧
  after (server.get_wallabag_articles is_archived domain None count sort_order
           include_content sv)
    (entries_request c
       {| GetArticlesRequest.is_archived := is_archived;
          GetArticlesRequest.since := None;
          GetArticlesRequest.domain := domain;
          GetArticlesRequest.count := count;
          GetArticlesRequest.sort_order := sort_order;
          GetArticlesRequest.include_content := include_content |}) ∧
  after (server.search_articles search_term count sv)
    (search_request c {| SearchArticlesRequest.search_term := search_term;
                         SearchArticlesRequest.count := count |}).
Proof.
  intros Hc Ht after. subst after. cbv beta.
  unfold server.get_single_wallabag_article, server.get_wallabag_articles,
    server.search_articles.
  rewrite !(adapter_ready _ sv c Hc).
  split; [|split].
  - rewrite (guarded_call_run c _ SingleArticle sv). cbn [snd client process].
    rewrite get_single_article_run by done. cbn [snd self world].
    split; [done | apply (sent_after_request _ {| self := c; world := process sv |})].
  - rewrite guarded_after_ret.
    rewrite (guarded_call_run c _ (λ l, SavedArticles (length l) l) sv).
    cbn [snd client process].
    rewrite get_articles_run by done. cbn [snd self world].
    split; [done | apply (sent_after_request _ {| self := c; world := process sv |})].
  - rewrite (guarded_call_run c _ (λ l, SearchResults (length l) l) sv).
    cbn [snd client process].
    rewrite search_articles_run by done. cbn [snd self world].
    split; [done | apply (sent_after_request _ {| self := c; world := process sv |})].
Qed.

End AdapterTheorems.

Section AdapterFirstUse.
Context `{pyd : Pydantic}.

(** X21.  First use in a configured process: when the global client is not
    set, the environment holds a non-empty base URL and the four
    credentials, and the server answers the token request with a truthy
    [access_token], an adapter call builds the client from the environment,
    stores the token in it, keeps it in the global, and has sent two
    requests: the token request and then the data request carrying that
    token. *)
Theorem first_use_authenticates_then_serves (sv : Server) (id : Z)
    (url cid csec user pw : string) (resp : Response) (body : gmap string json) (tok : json) :
  client sv = None →
  environ (process sv) !! "WALLABAG_BASE_URL" = Some url → url ≠ "" →
  environ (process sv) !! "WALLABAG_CLIENT_ID" = Some cid →
  environ (process sv) !! "WALLABAG_CLIENT_SECRET" = Some csec →
  environ (process sv) !! "WALLABAG_USERNAME" = Some user →
  environ (process sv) !! "WALLABAG_PASSWORD" = Some pw →
  network (process sv)
    {| req_method := "GET"; req_url := url +:+ "/oauth/v2/token";
       req_params := Some [("grant_type", "password"); ("client_id", cid);
                           ("client_secret", csec); ("username", user); ("password", pw)];
       req_data := None; req_headers := None |} = Responds resp →
  is_success resp = true →
  decoded resp = inr (JObj body) →
  body !! "access_token" = Some tok →
  truthy tok = true →
  let out := server.get_single_wallabag_article id sv in
  client (snd out) = Some {| base_url := url; access_token := tok; _client := None |} ∧
  sent (process (snd out)) =
    sent (process sv) ++
    [{| req_method := "GET"; req_url := url +:+ "/oauth/v2/token";
        req_params := Some [("grant_type", "password"); ("client_id", cid);
                            ("client_secret", csec); ("username", user); ("password", pw)];
        req_data := None; req_headers := None |};
     {| req_method := "GET"; req_url := url +:+ "/api/entries/" +:+ str_int id;
        req_params := None; req_data := None;
        req_headers := Some [Authorization_Bearer tok] |}] ∧
  ∃ o, fst out = Ok o.
Proof.
  intros Hc Hurl Hne Hcid Hcsec Huser Hpw Hn Hs Hd Hb Ht out. subst out.
  pose proof (initialize_client_success (process sv) url cid csec user pw resp body tok
                Hurl Hne Hcid Hcsec Huser Hpw Hn Hs Hd Hb Ht) as Hinit.
  cbv zeta in Hinit.
  unfold server.get_single_wallabag_article.
  rewrite (adapter_after_initialization _ sv _ _ Hc Hinit).
  rewrite (guarded_call_run _ _ SingleArticle). cbn [fst snd client process].
  rewrite get_single_article_run by done. cbn [snd self world].
  split; [done|]. split; [|by eexists].
  rewrite sent_after_request. cbn [world]. rewrite sent_after_request.
  by rewrite <- app_assoc.
Qed.

(** X22.  When the global client is not set and building or authenticating
    it raises, the adapter raises that exception and the global stays
    unset, so the next call tries again from the start. *)
Theorem failed_first_use_leaves_the_client_unset (sv : Server) (e : exn)
    (id : Z) (is_archived : bool) (domain : option string) (since_days_ago count : option Z)
    (sort_order : SortOrder) (include_content : bool) (search_term : string) :
  client sv = None →
  fst (initialize_client (process sv)) = Raise e →
  let failed (out : result ToolOutput * Server) :=
    fst out = Raise e ∧ client (snd out) = None in
  failed (server.get_single_wallabag_article id sv) ∧
  failed (server.get_wallabag_articles is_archived domain since_days_ago count
            sort_order include_content sv) ∧
  failed (server.search_articles search_term count sv).
Proof.
  intros Hc He failed. subst failed. cbv beta.
  unfold server.get_single_wallabag_article, server.get_wallabag_articles,
    server.search_articles.
  repeat split;
    first [ by apply adapter_initialization_escapes
          | by eapply adapter_state_after_failed_initialization ].
Qed.

(** X23.  [get_wallabag_articles] with [since_days_ago] beyond what
    [timedelta] takes: once the client exists, the [OverflowError] is
    caught like any other exception, the adapter returns the failure
    envelope with its text, and no request goes out.  The text is
    [days=N; must have magnitude <= 999999999] for a number of days of
    magnitude above 999999999 that fits a 32-bit C [int], and
    [Python int too large to convert to C int] for one that does not. *)
Theorem since_days_ago_out_of_range (sv : Server) (c : WallabagClient) (n : Z)
    (is_archived : bool) (domain : option string) (count : option Z)
    (sort_order : SortOrder) (include_content : bool) :
  client sv = Some c →
  999999999 < Z.abs n →
  let out := server.get_wallabag_articles is_archived domain (Some n) count sort_order
               include_content sv in
  snd out = sv ∧
  (-2147483648 ≤ n ≤ 2147483647 →
   fst out = Ok (Failure ("days=" +:+ str_int n +:+ "; must have magnitude <= 999999999"))) ∧
  (n < -2147483648 ∨ 2147483647 < n →
   fst out = Ok (Failure "Python int too large to convert to C int")).
Proof.
  intros Hc Hn out. subst out. unfold server.get_wallabag_articles.
  rewrite (adapter_ready _ sv c Hc).
  unfold try_except, bind, in_process, days_ago, bind, get, lift_result,
    timedelta_days, failure_envelope, ret, raise.
  apply Z.ltb_lt in Hn.
  destruct (Z.ltb n (-2147483648)) eqn:Hlo; [|destruct (Z.ltb 2147483647 n) eqn:Hhi];
    cbn [orb]; rewrite ?Hn; cbn [fst snd].
  - apply Z.ltb_lt in Hlo. split; [by destruct sv|]. split; [lia|done].
  - apply Z.ltb_lt in Hhi. split; [by destruct sv|]. split; [lia|done].
  - apply Z.ltb_ge in Hlo, Hhi. split; [by destruct sv|]. split; [done|lia].
Qed.

End AdapterFirstUse.

(** ** The command-line check *)

(** X24.  [main] stops at the constructor, with [WallabagConfigError] and
    nothing sent, when the environment holds no base URL.  In a configured
    process whose server answers the token request with a truthy
    [access_token], it sends exactly two requests, whatever the second
    answer is: the token request, then a [GET] of [{base_url}/api/entries/59]
    carrying that token. *)
Theorem main_requests `{pyd : Pydantic} (w : World) :
  (environ w !! "WALLABAG_BASE_URL" = None →
   main w = (Raise (WallabagConfigError ConfigError_base_url), w)) ∧
  (∀ (url cid csec user pw : string) (resp : Response) (body : gmap string json) (tok : json),
     environ w !! "WALLABAG_BASE_URL" = Some url → url ≠ "" →
     environ w !! "WALLABAG_CLIENT_ID" = Some cid →
     environ w !! "WALLABAG_CLIENT_SECRET" = Some csec →
     environ w !! "WALLABAG_USERNAME" = Some user →
     environ w !! "WALLABAG_PASSWORD" = Some pw →
     network w
       {| req_method := "GET"; req_url := url +:+ "/oauth/v2/token";
          req_params := Some [("grant_type", "password"); ("client_id", cid);
                              ("client_secret", csec); ("username", user); ("password", pw)];
          req_data := None; req_headers := None |} = Responds resp →
     is_success resp = true →
     decoded resp = inr (JObj body) →
     body !! "access_token" = Some tok →
     truthy tok = true →
     sent (snd (main w)) =
       sent w ++
       [{| req_method := "GET"; req_url := url +:+ "/oauth/v2/token";
           req_params := Some [("grant_type", "password"); ("client_id", cid);
                               ("client_secret", csec); ("username", user); ("password", pw)];
           req_data := None; req_headers := None |};
        {| req_method := "GET"; req_url := url +:+ "/api/entries/59";
           req_params := None; req_data := None;
           req_headers := Some [Authorization_Bearer tok] |}]).
Proof.
  split.
  - intros Hurl. unfold main, bind at 1.
    unfold WallabagClient_init, bind, get, or_else, getenv. by rewrite Hurl.
  - intros url cid csec user pw resp body tok Hurl Hne Hcid Hcsec Huser Hpw Hn Hs Hd Hb Ht.
    pose proof (initialize_client_success w url cid csec user pw resp body tok
                  Hurl Hne Hcid Hcsec Huser Hpw Hn Hs Hd Hb Ht) as Hinit.
    cbv zeta in Hinit. unfold initialize_client in Hinit.
    unfold main.
    set (c0 := {| base_url := url; access_token := JNull; _client := None |}) in *.
    assert (Hc0 : WallabagClient_init None None w = (Ok c0, w)).
    { unfold WallabagClient_init, bind, get, or_else, getenv. rewrite Hurl.
      by rewrite (str_truthy_nonempty url Hne). }
    unfold bind at 1 in Hinit. rewrite Hc0 in Hinit.
    unfold bind at 1. rewrite Hc0.
    unfold bind at 1 in Hinit. unfold bind at 1.
    destruct (call_on c0 (authenticate None None None None) w) as [[[b c1]|e] w1] eqn:Hauth;
      [|discriminate Hinit].
    unfold ret in Hinit. injection Hinit as Hc1 Hw1. cbn [snd] in Hc1. subst c1 w1.
    unfold bind at 1, call_on. cbn [snd].
    rewrite get_single_article_run by done.
    cbn [fst snd self world]. unfold ret.
    destruct (and_then _ _); cbn [snd];
      rewrite sent_after_request; cbn [world];
      unfold sent; cbn [trace]; rewrite omap_app, <- app_assoc; reflexivity.
Qed.

Lemma main_requests_witness :
  main offline = (Raise (WallabagConfigError ConfigError_base_url), offline) ∧
  (req_url <$> sent (snd (main (wallabag (ok_response (token_body "fresh"))
                                         (ok_response (JObj entry_full)))))) =
    ["http://test-wallabag.com/oauth/v2/token"; "http://test-wallabag.com/api/entries/59"].
Proof.
  split.
  - by apply (proj1 (main_requests offline)).
  - rewrite (proj2 (main_requests (wallabag (ok_response (token_body "fresh"))
                                            (ok_response (JObj entry_full))))
               "http://test-wallabag.com" "cid" "csecret" "user" "pw"
               (ok_response (token_body "fresh"))
               (list_to_map [("access_token", JStr "fresh"); ("expires_in", JInt 3600);
                             ("token_type", JStr "Bearer")])
               (JStr "fresh")); done.
Defined.

(** ** Adapter runs on sample processes *)

Lemma adapters_mirror_the_client_call_witness :
  let fresh := {| client := Some new_client; process := offline |} in
  let empty := {| client := Some authenticated_client;
                  process := answering (articles_body []) |} in
  let full := {| client := Some authenticated_client;
                 process := answering (JObj entry_full) |} in
  fst (server.get_single_wallabag_article 59 fresh) = Ok (Failure AuthError_no_token) ∧
  fst (server.search_articles "rocq" None fresh) = Ok (Failure AuthError_no_token) ∧
  fst (server.get_wallabag_articles false None None None desc false empty) =
    Ok (SavedArticles 0 []) ∧
  fst (server.search_articles "rocq" None empty) = Ok (SearchResults 0 []) ∧
  match fst (server.get_single_wallabag_article 59 full) with
  | Ok (SingleArticle a) => Article.title a = "Article 1"
  | _ => False
  end.
Proof.
  intros fresh empty full.
  destruct (adapters_mirror_the_client_call fresh new_client 59 false None None desc false
              "rocq" eq_refl) as (Hone & _ & Hsearch).
  destruct (adapters_mirror_the_client_call empty authenticated_client 59 false None None
              desc false "rocq" eq_refl) as (_ & Hlist & Hfound).
  destruct (adapters_mirror_the_client_call full authenticated_client 59 false None None
              desc false "rocq" eq_refl) as (Hfull & _).
  split; [exact Hone|]. split; [exact Hsearch|].
  split; [exact Hlist|]. split; [exact Hfound|].
  rewrite Hfull. reflexivity.
Defined.

Lemma adapters_reuse_the_client_witness :
  let sv := {| client := Some authenticated_client;
               process := answering (JObj entry_full) |} in
  let out := server.get_single_wallabag_article 59 sv in
  client (snd out) = Some authenticated_client ∧
  (req_url <$> sent (process (snd out))) = ["http://test-wallabag.com/api/entries/59"].
Proof.
  intros sv out.
  destruct (adapters_reuse_the_client sv authenticated_client 59 false None None desc false
              "rocq" eq_refl eq_refl) as ((Hclient & Hsent) & _ & _).
  subst out. split; [exact Hclient | by rewrite Hsent].
Defined.

Lemma first_use_authenticates_then_serves_witness :
  let sv := {| client := None;
               process := wallabag (ok_response (token_body "fresh"))
                                   (ok_response (JObj entry_full)) |} in
  let out := server.get_single_wallabag_article 59 sv in
  (access_token <$> client (snd out)) = Some (JStr "fresh") ∧
  (req_url <$> sent (process (snd out))) =
    ["http://test-wallabag.com/oauth/v2/token"; "http://test-wallabag.com/api/entries/59"].
Proof.
  intros sv out.
  assert (Hne : "http://test-wallabag.com" ≠ "") by discriminate.
  destruct (first_use_authenticates_then_serves sv 59
              "http://test-wallabag.com" "cid" "csecret" "user" "pw"
              (ok_response (token_body "fresh"))
              (list_to_map [("access_token", JStr "fresh"); ("expires_in", JInt 3600);
                            ("token_type", JStr "Bearer")])
              (JStr "fresh")
              eq_refl eq_refl Hne eq_refl eq_refl eq_refl eq_refl
              eq_refl eq_refl eq_refl eq_refl eq_refl) as (Hclient & Hsent & _).
  subst out. by rewrite Hclient, Hsent.
Defined.

Lemma failed_first_use_leaves_the_client_unset_witness :
  let sv := {| client := None; process := rejecting |} in
  let out := server.search_articles "rocq" (Some 5) sv in
  fst out = Raise (WallabagAuthError
                     "Authentication failed: API request failed: 401 - invalid_grant") ∧
  client (snd out) = None.
Proof.
  intros sv out.
  destruct (failed_first_use_leaves_the_client_unset sv
              (WallabagAuthError "Authentication failed: API request failed: 401 - invalid_grant")
              59 false None None (Some 5) desc false "rocq" eq_refl eq_refl)
    as (_ & _ & Hsearch).
  exact Hsearch.
Defined.

Lemma since_days_ago_out_of_range_witness :
  let sv := {| client := Some authenticated_client; process := offline |} in
  server.get_wallabag_articles false None (Some 1000000000) None desc false sv =
    (Ok (Failure "days=1000000000; must have magnitude <= 999999999"), sv) ∧
  server.get_wallabag_articles false None (Some (-2147483648)) None desc false sv =
    (Ok (Failure "days=-2147483648; must have magnitude <= 999999999"), sv) ∧
  server.get_wallabag_articles false None (Some 2147483648) None desc false sv =
    (Ok (Failure "Python int too large to convert to C int"), sv).
Proof.
  intros sv.
  assert (Hin : ∀ n, 999999999 < Z.abs n → -2147483648 ≤ n ≤ 2147483647 →
            server.get_wallabag_articles false None (Some n) None desc false sv =
            (Ok (Failure ("days=" +:+ str_int n +:+ "; must have magnitude <= 999999999")), sv)).
  { intros n Hn Hr.
    destruct (since_days_ago_out_of_range sv authenticated_client n false None None
                desc false eq_refl Hn) as (Hsv & Hfit & _).
    apply injective_projections; [exact (Hfit Hr) | exact Hsv]. }
  split; [|split].
  - apply (Hin 1000000000); lia.
  - apply (Hin (-2147483648)); lia.
  - destruct (since_days_ago_out_of_range sv authenticated_client 2147483648 false None None
                desc false eq_refl ltac:(lia)) as (Hsv & _ & Hbig).
    apply injective_projections; [apply Hbig; lia | exact Hsv].
Defined.
